(** * Open Scouts: the scout-cron dispatcher, its Slack notifier and the
      test-Slack endpoint, embedded from the TypeScript sources.

    Source files embedded here:
    - [supabase/functions/scout-cron/index.ts]  (module [Cron])
    - [supabase/functions/scout-cron/slack.ts]  (module [Slack])
    - [app/api/send-test-slack/route.ts]        (module [Route])

    Conventions of the embedding:
    - a JavaScript string is the list of its UTF-16 code units, so that
      [length] is the [.length] of the source;
    - a timestamp is the number of milliseconds since the epoch, as
      [Date.now()] and [Date.prototype.getTime] give it; converting with
      [toISOString] and parsing again is the identity on such values;
    - a table with a primary key is a finite map from the key to the row;
    - an [async] function is a computation over an explicit world that either
      returns a value or throws; [await] is sequencing;
    - [console.log] and [console.error] have no effect on the world. *)

From Stdlib Require Import ZArith String Ascii DecimalString.
From stdpp Require Import base option list gmap.

Local Open Scope Z_scope.

(** ** JavaScript values used by the sources *)

Module JS.

Definition jsstring := list N.

(** An ASCII literal of the source as code units. *)
Definition lit (s : string) : jsstring :=
  map N_of_ascii (list_ascii_of_string s).

(** Decimal rendering of an integer inside a template literal. *)
Definition of_Z (z : Z) : jsstring :=
  lit (NilZero.string_of_int (Z.to_int z)).

Definition LF : N := 10%N.

(** Truthiness of a nullable string: [null], [undefined] and the empty
    string are falsy. *)
Definition truthy_str (o : option jsstring) : bool :=
  match o with
  | Some (_ :: _) => true
  | _ => false
  end.

(** Truthiness of a nullable object. *)
Definition truthy_obj {A} (o : option A) : bool :=
  match o with
  | Some _ => true
  | None => false
  end.

(** [a || b] on nullable strings. *)
Definition or_str (a b : option jsstring) : option jsstring :=
  if truthy_str a then a else b.

(** A thrown value: an [Error] instance with its message, or any other
    value, with what [String(v)] gives and its [message] property when it
    has one. *)
Inductive thrown :=
| JsError (message : jsstring)
| JsOther (to_string : jsstring) (message : option jsstring).

(** [error.message] *)
Definition message_of (e : thrown) : option jsstring :=
  match e with
  | JsError m => Some m
  | JsOther _ m => m
  end.

(** [error instanceof Error ? error.message : String(error)] *)
Definition describe (e : thrown) : jsstring :=
  match e with
  | JsError m => m
  | JsOther s _ => s
  end.

(** The outcome of running a function body. *)
Inductive completion (A : Type) :=
| Return (a : A)
| Throw (e : thrown).
Arguments Return {A} a.
Arguments Throw {A} e.

(** Computations over a world [W]. A throw keeps the world as it was when
    the exception was raised: nothing is rolled back. *)
Definition M (W A : Type) : Type := W -> completion A * W.

Definition ret {W A} (a : A) : M W A := fun w => (Return a, w).

Definition throw {W A} (e : thrown) : M W A := fun w => (Throw e, w).

Definition bind {W A B} (m : M W A) (k : A -> M W B) : M W B :=
  fun w =>
    match m w with
    | (Return a, w') => k a w'
    | (Throw e, w') => (Throw e, w')
    end.

(** [try { body } catch (error) { handler }] *)
Definition try_catch {W A} (body : M W A) (handler : thrown -> M W A) : M W A :=
  fun w =>
    match body w with
    | (Return a, w') => (Return a, w')
    | (Throw e, w') => handler e w'
    end.

Definition get {W} : M W W := fun w => (Return w, w).

Definition modify {W} (f : W -> W) : M W unit := fun w => (Return tt, f w).

(** Lifting a pure completion. *)
Definition lift {W A} (c : completion A) : M W A := fun w => (c, w).

(** [for (const x of xs) { body }] *)
Fixpoint for_of {W A} (xs : list A) (body : A -> M W unit) : M W unit :=
  match xs with
  | [] => ret tt
  | x :: rest => bind (body x) (fun _ => for_of rest body)
  end.

(** A global [String.prototype.replace] with a regular expression whose
    matches are never empty: scanning from the left, at each position not
    inside an earlier match the pattern is tried; [try_match] gives the
    replacement text and the number of code units matched. *)
Fixpoint replace_all_from (try_match : jsstring -> option (jsstring * nat))
         (skip : nat) (s : jsstring) : jsstring :=
  match s with
  | [] => []
  | c :: rest =>
      match skip with
      | S k => replace_all_from try_match k rest
      | O =>
          match try_match s with
          | Some (repl, n) => repl ++ replace_all_from try_match (Nat.pred n) rest
          | None => c :: replace_all_from try_match O rest
          end
      end
  end.

Definition replace_all (try_match : jsstring -> option (jsstring * nat))
           (s : jsstring) : jsstring :=
  replace_all_from try_match O s.

(** [s] starts with [p]: the rest of [s] after [p]. *)
Fixpoint strip_prefix (p s : jsstring) : option jsstring :=
  match p, s with
  | [], _ => Some s
  | a :: p', b :: s' => if N.eqb a b then strip_prefix p' s' else None
  | _ :: _, [] => None
  end.

(** The longest prefix of code units satisfying [f], and the rest. *)
Fixpoint span (f : N -> bool) (s : jsstring) : jsstring * jsstring :=
  match s with
  | c :: rest =>
      if f c then let (a, b) := span f rest in (c :: a, b) else ([], s)
  | [] => ([], [])
  end.

(** What [.] excludes in a regular expression without the [s] flag. *)
Definition is_line_terminator (c : N) : bool :=
  (N.eqb c 10 || N.eqb c 13 || N.eqb c 8232 || N.eqb c 8233)%N.

Definition in_range (lo hi c : N) : bool := (N.leb lo c && N.leb c hi)%N.
Definition is_upper (c : N) : bool := in_range 65 90 c.   (* A-Z *)
Definition is_lower (c : N) : bool := in_range 97 122 c.  (* a-z *)
Definition is_digit (c : N) : bool := in_range 48 57 c.   (* 0-9 *)

End JS.

Import JS.

Declare Scope js_scope.
Delimit Scope js_scope with js.
Notation "'let*' x ':=' m 'in' k" := (bind m (fun x => k))
  (at level 10, x name, m at level 100, k at level 200) : js_scope.
Notation "'do*' m 'in' k" := (bind m (fun _ => k))
  (at level 10, m at level 100, k at level 200) : js_scope.
Local Open Scope js_scope.

(** ** Rows and objects ([types.ts] and the migrations) *)

Module Types.

Record Location := { city : option jsstring }.

(** A row of [scouts], as [select("*")] returns it. *)
Record Scout := {
  id : jsstring;
  user_id : jsstring;
  title : option jsstring;
  goal : option jsstring;
  description : option jsstring;
  location : option Location;
  search_queries : option (list jsstring);
  frequency : option jsstring;
  is_active : bool
}.

(** A row of [scout_executions]; its [id] is the key of the table. *)
Record Execution := {
  scout_id : jsstring;
  status : jsstring;
  started_at : Z;
  completed_at : option Z;
  error_message : option jsstring
}.

(** A row of [user_preferences]; its [user_id] is the key of the table. *)
Record Preferences := {
  slack_webhook_url : option jsstring;
  last_test_slack_at : option Z
}.

Record ScoutResponse := { response : jsstring }.

(** What a query of the store client resolves to. *)
Record QueryResult (A : Type) := {
  data : option A;
  error : option jsstring
}.
Arguments data {A} _.
Arguments error {A} _.

(** How a call to an external service can go wrong: it answers with an
    error, or the call itself throws. *)
Inductive fault :=
| Healthy
| Fails (message : jsstring)
| Raises (e : thrown).

(** The [Response] of [fetch]: [ok], [status] and what [text()] gives. *)
Record FetchResponse := {
  ok : bool;
  http_status : Z;
  body_text : completion jsstring
}.

End Types.

Import Types.

(** ** [slack.ts]: notifications to a Slack incoming webhook *)

Module Slack.

(** [/^https:\/\/hooks\.slack\.com\/services\/T[A-Z0-9]+\/B[A-Z0-9]+\/[A-Za-z0-9]+$/.test(url)].
    Each repeated class is followed by a character outside it (or by the
    end of the input), so the longest run is the only candidate. *)
Definition SLACK_WEBHOOK_PATTERN_test (url : jsstring) : bool :=
  let upper_digit c := is_upper c || is_digit c in
  let alnum c := is_upper c || is_lower c || is_digit c in
  match strip_prefix (lit "https://hooks.slack.com/services/T") url with
  | None => false
  | Some r1 =>
      match span upper_digit r1 with
      | ([], _) => false
      | (_ :: _, r2) =>
          match strip_prefix (lit "/B") r2 with
          | None => false
          | Some r3 =>
              match span upper_digit r3 with
              | ([], _) => false
              | (_ :: _, r4) =>
                  match strip_prefix (lit "/") r4 with
                  | None => false
                  | Some r5 =>
                      match span alnum r5 with
                      | (_ :: _, []) => true
                      | _ => false
                      end
                  end
              end
          end
      end
  end.

Record SlackText := {
  text_type : jsstring;
  text_text : jsstring;
  emoji : option bool
}.

Record SlackElement := {
  element_type : jsstring;
  element_text : jsstring
}.

Record SlackBlock := {
  block_type : jsstring;
  block_text : option SlackText;
  elements : option (list SlackElement)
}.

Record SlackPayload := {
  text : jsstring;
  blocks : list SlackBlock
}.

Definition header (t : jsstring) : SlackBlock :=
  {| block_type := lit "header";
     block_text := Some {| text_type := lit "plain_text"; text_text := t;
                           emoji := Some true |};
     elements := None |}.

Definition section (t : jsstring) : SlackBlock :=
  {| block_type := lit "section";
     block_text := Some {| text_type := lit "mrkdwn"; text_text := t;
                           emoji := None |};
     elements := None |}.

Definition divider : SlackBlock :=
  {| block_type := lit "divider"; block_text := None; elements := None |}.

Definition context (t : jsstring) : SlackBlock :=
  {| block_type := lit "context"; block_text := None;
     elements := Some [ {| element_type := lit "mrkdwn"; element_text := t |} ] |}.

(** The world of the notifier and of the test endpoint: the preferences
    table, the messages posted to webhooks so far (URL and payload, oldest
    first) and the number of clock readings taken. *)
Record World := {
  user_preferences : gmap jsstring Preferences;
  outbox : list (jsstring * SlackPayload);
  ticks : nat
}.

(** [text.replace(/&/g, "&amp;").replace(/</g, "&lt;").replace(/>/g, "&gt;")] *)
Definition replace_char (c : N) (by_ : jsstring) (s : jsstring) : jsstring :=
  replace_all (fun r => match r with
                        | x :: _ => if N.eqb x c then Some (by_, 1%nat) else None
                        | [] => None
                        end) s.

Definition escapeSlackText (text : jsstring) : jsstring :=
  replace_char 62 (lit "&gt;")
    (replace_char 60 (lit "&lt;")
       (replace_char 38 (lit "&amp;") text)).

(** [/## /g] replaced by ["*"] *)
Definition match_heading (s : jsstring) : option (jsstring * nat) :=
  match strip_prefix (lit "## ") s with
  | Some _ => Some (lit "*", 3%nat)
  | None => None
  end.

(** The lazy [(.*?)] followed by two stars: the shortest run of code units
    other than line terminators after which two stars follow. *)
Fixpoint lazy_until_stars (s : jsstring) : option jsstring :=
  match strip_prefix (lit "**") s with
  | Some _ => Some []
  | None =>
      match s with
      | [] => None
      | c :: rest =>
          if is_line_terminator c then None
          else match lazy_until_stars rest with
               | Some inner => Some (c :: inner)
               | None => None
               end
      end
  end.

(** [/\*\*(.*?)\*\*/g] replaced by ["*$1*"] *)
Definition match_bold (s : jsstring) : option (jsstring * nat) :=
  match strip_prefix (lit "**") s with
  | None => None
  | Some r =>
      match lazy_until_stars r with
      | None => None
      | Some inner => Some (lit "*" ++ inner ++ lit "*", (2 + length inner + 2)%nat)
      end
  end.

(** [/\[([^\]]+)\]\(([^)]+)\)/g] replaced by ["<$2|$1>"] *)
Definition match_link (s : jsstring) : option (jsstring * nat) :=
  match strip_prefix (lit "[") s with
  | None => None
  | Some r1 =>
      match span (fun c => negb (N.eqb c 93)) r1 with
      | ([], _) => None
      | (label, r2) =>
          match strip_prefix (lit "](") r2 with
          | None => None
          | Some r3 =>
              match span (fun c => negb (N.eqb c 41)) r3 with
              | ([], _) => None
              | (target, r4) =>
                  match strip_prefix (lit ")") r4 with
                  | None => None
                  | Some _ =>
                      Some (lit "<" ++ target ++ lit "|" ++ label ++ lit ">",
                            (1 + length label + 2 + length target + 1)%nat)
                  end
              end
          end
      end
  end.

Definition MAX_TEXT_LENGTH : nat := 2000.

(** The marker appended to a shortened response: two line feeds and
    [...(truncated)]. *)
Definition truncation_marker : jsstring := [LF; LF] ++ lit "...(truncated)".

(** The first statements of [formatSlackMessage]: the response with its
    markdown rewritten for Slack, then shortened. *)
Definition slack_markdown (text : jsstring) : jsstring :=
  replace_all match_link (replace_all match_bold (replace_all match_heading text)).

Definition cleanResponse (scoutResponse : ScoutResponse) : jsstring :=
  let cleanResponse := slack_markdown (response scoutResponse) in
  if (MAX_TEXT_LENGTH <? length cleanResponse)%nat
  then take (MAX_TEXT_LENGTH - 15) cleanResponse ++ truncation_marker
  else cleanResponse.

(** Calling a string method on a field that is [null]. *)
Definition required {W} (o : option jsstring) : M W jsstring :=
  match o with
  | Some s => ret s
  | None => throw (JsError (lit "Cannot read properties of null (reading 'replace')"))
  end.

Section WithEnvironment.

(** The clock at its successive readings, and
    [toLocaleString("ja-JP", { timeZone: "Asia/Tokyo" })]. *)
Variable clock : nat -> Z.
Variable toLocaleString : Z -> jsstring.
(** The webhook: what [fetch(url, { method: "POST", body })] does. *)
Variable fetch : jsstring -> SlackPayload -> completion FetchResponse.
(** The health of the preferences query. *)
Variable prefs_fault : fault.

Definition Date_now : M World Z :=
  fun w => (Return (clock (ticks w)),
            {| user_preferences := user_preferences w;
               outbox := outbox w;
               ticks := S (ticks w) |}).

Definition post (url : jsstring) (payload : SlackPayload) : M World FetchResponse :=
  fun w => (fetch url payload,
            {| user_preferences := user_preferences w;
               outbox := outbox w ++ [(url, payload)];
               ticks := ticks w |}).

(** [from("user_preferences").select(...).eq("user_id", uid).single()] *)
Definition select_preferences_single (uid : jsstring)
  : M World (QueryResult Preferences) :=
  fun w =>
    match prefs_fault with
    | Raises e => (Throw e, w)
    | Fails msg => (Return {| data := None; error := Some msg |}, w)
    | Healthy =>
        match user_preferences w !! uid with
        | Some row => (Return {| data := Some row; error := None |}, w)
        | None =>
            (Return {| data := None;
                       error := Some (lit "JSON object requested, multiple (or no) rows returned") |},
             w)
        end
    end.

(** The code units of the two decorations of the source file, which
    holds them in this form. *)
Definition header_mark : jsstring := [63743; 252; 238; 231]%N.
Definition place_mark : jsstring := [63743; 252; 236; 231]%N.
Definition time_mark : jsstring := [8218; 232; 8734]%N.

Definition formatSlackMessage (scout : Scout) (scoutResponse : ScoutResponse)
  : M World SlackPayload :=
  let cleanResponse := cleanResponse scoutResponse in
  let* title := required (title scout) in
  let safeTitle := escapeSlackText title in
  let* goal := required (goal scout) in
  let safeGoal := escapeSlackText goal in
  let city :=
    match or_str (match location scout with
                  | Some l => city l
                  | None => None
                  end) (Some (lit "No location")) with
    | Some c => c
    | None => []
    end in
  let place := escapeSlackText city in
  let* now := Date_now in
  ret {| text := lit "Scout Alert: " ++ safeTitle ++ lit " found new results!";
         blocks :=
           [ header (header_mark ++ lit " Scout Alert: " ++ safeTitle);
             section (lit "Your scout *" ++ safeTitle ++ lit "* found new results!");
             section (lit "*Goal:* " ++ safeGoal);
             divider;
             section cleanResponse;
             divider;
             context (place_mark ++ lit " " ++ place ++ lit " | "
                        ++ time_mark ++ lit " " ++ toLocaleString now) ] |}.

Definition sendSlackNotification (scout : Scout) (scoutResponse : ScoutResponse)
  : M World unit :=
  try_catch
    (let* r := select_preferences_single (user_id scout) in
     let webhook :=
       match data r with
       | Some preferences => slack_webhook_url preferences
       | None => None
       end in
     if truthy_obj (error r) || negb (truthy_str webhook) then ret tt
     else
       let webhookUrl := default [] webhook in
       if negb (SLACK_WEBHOOK_PATTERN_test webhookUrl) then ret tt
       else
         let* payload := formatSlackMessage scout scoutResponse in
         let* response := post webhookUrl payload in
         if negb (ok response) then
           let* errorText := lift (body_text response) in
           ret tt
         else ret tt)
    (fun error =>
       let message := describe error in
       ret tt).

(** What [sendTestSlackNotification] resolves to. *)
Record TestResult := {
  success : bool;
  test_error : option jsstring
}.

Definition INVALID_WEBHOOK : jsstring :=
  lit "Invalid webhook URL format. Must be a valid Slack webhook URL (https://hooks.slack.com/services/T.../B.../...)".

Definition test_mark : jsstring := [63743; 252; 233; 226]%N.

Definition test_notification (now : Z) : SlackPayload :=
  {| text := lit "Test notification from Open Scouts";
     blocks :=
       [ header (test_mark ++ lit " Open Scouts Test Notification");
         section (lit "Great news! Your Slack notifications are configured correctly."
                    ++ [LF; LF]
                    ++ lit "When your scouts find results, you'll receive notifications here.");
         context (lit "Sent at " ++ toLocaleString now) ] |}.

Definition sendTestSlackNotification (webhookUrl : jsstring) : M World TestResult :=
  try_catch
    (if negb (SLACK_WEBHOOK_PATTERN_test webhookUrl) then
       ret {| success := false; test_error := Some INVALID_WEBHOOK |}
     else
       let* now := Date_now in
       let payload := test_notification now in
       let* response := post webhookUrl payload in
       if negb (ok response) then
         let* errorText := lift (body_text response) in
         ret {| success := false;
                test_error := Some (lit "Slack returned error: " ++ errorText) |}
       else ret {| success := true; test_error := None |})
    (fun error =>
       let message := describe error in
       ret {| success := false; test_error := Some message |}).

End WithEnvironment.

(** The text of the section that carries the result: [blocks[4].text.text]. *)
Definition result_section_text (p : SlackPayload) : option jsstring :=
  match blocks p !! 4%nat with
  | Some b => text_text <$> block_text b
  | None => None
  end.

End Slack.

(** ** [index.ts]: the HTTP handler of the scout-cron edge function *)

Module Cron.

(** The store as the handler sees it: the two tables it queries, and the
    number of clock readings taken so far. *)
Record World := {
  scout_executions : gmap jsstring Execution;
  scouts : gmap jsstring Scout;
  ticks : nat
}.

Definition set_scout_executions (t : gmap jsstring Execution) (w : World) : World :=
  {| scout_executions := t; scouts := scouts w; ticks := ticks w |}.

Definition set_scouts (t : gmap jsstring Scout) (w : World) : World :=
  {| scout_executions := scout_executions w; scouts := t; ticks := ticks w |}.

Record Request := {
  method : jsstring;
  (** [new URL(req.url).searchParams.get("scoutId")] *)
  scoutId_param : option jsstring
}.

Record ScoutSummary := {
  summary_id : jsstring;
  summary_title : option jsstring
}.

(** The three bodies the handler serialises. A property that is
    [undefined] is left out by [JSON.stringify]. *)
Inductive Body :=
| TextBody (text : jsstring)
| ReportBody (success : bool) (scoutsExecuted : nat) (scouts : list ScoutSummary)
| ErrorBody (error : option jsstring).

Record Response := {
  body : Body;
  status_code : Z
}.

(** [supabase.auth.admin.getUserById]: [{ data: { user }, error }]. *)
Record AuthUser := { last_sign_in_at : option Z }.

Record UserResponse := {
  user : option AuthUser;
  user_error : option jsstring
}.

(** A promise once settled, and the instant at which it settled. *)
Inductive Settlement :=
| Fulfilled
| Rejected (reason : thrown).

Record Promise := {
  settled_at : nat;
  outcome : Settlement
}.

(** The rejection that happens first, if any: the earliest one, and among
    those of one instant the one of the lowest index. *)
Fixpoint first_rejection (ps : list Promise) : option (nat * thrown) :=
  match ps with
  | [] => None
  | p :: rest =>
      match outcome p with
      | Fulfilled => first_rejection rest
      | Rejected e =>
          match first_rejection rest with
          | Some (t, e') =>
              if (t <? settled_at p)%nat then Some (t, e') else Some (settled_at p, e)
          | None => Some (settled_at p, e)
          end
      end
  end.

(** [await Promise.all(ps)]: waits for all when none rejects, and throws
    the reason of the first rejection otherwise. The other promises are
    not cancelled; their results are dropped. *)
Definition Promise_all {W} (ps : list Promise) : M W unit :=
  match first_rejection ps with
  | Some (_, e) => throw e
  | None => ret tt
  end.

(** [[...new Set(xs)]]: the distinct elements in the order of their first
    occurrence. *)
Fixpoint unique_from (seen xs : list jsstring) : list jsstring :=
  match xs with
  | [] => []
  | x :: rest =>
      if bool_decide (x ∈ seen) then unique_from seen rest
      else x :: unique_from (x :: seen) rest
  end.

Definition unique (xs : list jsstring) : list jsstring := unique_from [] xs.

Definition TIMEOUT_MESSAGE : jsstring :=
  lit "Execution timed out after 3 minutes (Supabase Edge Function limit)".

(** The object given to [update] for a stuck execution. *)
Definition mark_failed (now : Z) (e : Execution) : Execution :=
  {| scout_id := scout_id e;
     status := lit "failed";
     started_at := started_at e;
     completed_at := Some now;
     error_message := Some TIMEOUT_MESSAGE |}.

(** [.eq("status", "running").lt("started_at", threshold)] *)
Definition is_stuck (threshold : Z) (e : Execution) : bool :=
  bool_decide (status e = lit "running") && (started_at e <? threshold).

(** [update({ is_active: false })] on a row. *)
Definition deactivate (s : Scout) : Scout :=
  {| id := id s; user_id := user_id s; title := title s; goal := goal s;
     description := description s; location := location s;
     search_queries := search_queries s; frequency := frequency s;
     is_active := false |}.

(** [.in("user_id", ids).eq("is_active", true)] *)
Definition owned_active (ids : list jsstring) (s : Scout) : bool :=
  bool_decide (user_id s ∈ ids) && is_active s.

(** The completeness test of the manual trigger. *)
Definition isComplete (scout : Scout) : bool :=
  truthy_str (title scout)
  && truthy_str (goal scout)
  && truthy_str (description scout)
  && truthy_obj (location scout)
  && match search_queries scout with
     | Some qs => (0 <? length qs)%nat
     | None => false
     end
  && truthy_str (frequency scout).

Definition summary (s : Scout) : ScoutSummary :=
  {| summary_id := id s; summary_title := title s |}.

Section WithEnvironment.

(** [Date.now()] at its successive readings. *)
Variable clock : nat -> Z.
(** [Deno.env.get] for the two variables read. *)
Variable SUPABASE_URL : option jsstring.
Variable SUPABASE_SERVICE_ROLE_KEY : option jsstring.
(** The health of each query of the handler. *)
Variable stuck_select_fault : fault.
Variable execution_update_fault : jsstring -> fault.
Variable scout_users_fault : fault.
Variable disable_fault : fault.
Variable scout_check_fault : fault.
Variable scouts_select_fault : fault.
(** The authentication service. *)
Variable getUserById : jsstring -> completion UserResponse.
(** [helpers.ts] and [agent.ts], which the handler imports. *)
Variable shouldRunScout : Scout -> bool.
Variable executeScoutAgent : Scout -> Promise.

Definition Date_now : M World Z :=
  fun w => (Return (clock (ticks w)),
            {| scout_executions := scout_executions w;
               scouts := scouts w;
               ticks := S (ticks w) |}).

(** A query that reads: [read] gives the rows when the store answers. *)
Definition query {A} (f : fault) (read : World -> A) : M World (QueryResult A) :=
  fun w =>
    match f with
    | Raises e => (Throw e, w)
    | Fails msg => (Return {| data := None; error := Some msg |}, w)
    | Healthy => (Return {| data := Some (read w); error := None |}, w)
    end.

(** A query that writes: [write] is applied when the store accepts it,
    and [read] gives the rows it returns. *)
Definition mutation {A} (f : fault) (read : World -> A) (write : World -> World)
  : M World (QueryResult A) :=
  fun w =>
    match f with
    | Raises e => (Throw e, w)
    | Fails msg => (Return {| data := None; error := Some msg |}, w)
    | Healthy => (Return {| data := Some (read w); error := None |}, write w)
    end.

(** *** Stuck executions (lines 27 to 54) *)

Definition select_stuck (threshold : Z)
  : M World (QueryResult (list (jsstring * Execution))) :=
  query stuck_select_fault
    (fun w => List.filter (fun r => is_stuck threshold r.2)
                (map_to_list (scout_executions w))).

Definition update_failed (execution_id : jsstring) (now : Z)
  : M World (QueryResult unit) :=
  mutation (execution_update_fault execution_id)
    (fun _ => tt)
    (fun w => set_scout_executions
                (alter (mark_failed now) execution_id (scout_executions w)) w).

Definition cleanup_stuck_executions : M World unit :=
  let* now := Date_now in
  let threeMinutesAgo := now - 3 * 60 * 1000 in
  let* r := select_stuck threeMinutesAgo in
  match data r with
  | Some ((_ :: _) as stuckExecutions) =>
      for_of stuckExecutions
        (fun execution =>
           let* completed := Date_now in
           let* _ := update_failed execution.1 completed in
           ret tt)
  | _ => ret tt
  end.

(** *** Scouts of users who have not signed in for 30 days (lines 56 to 112) *)

Definition select_active_scout_users : M World (QueryResult (list jsstring)) :=
  query scout_users_fault
    (fun w => map user_id
                (List.filter is_active (map snd (map_to_list (scouts w))))).

(** One turn of the loop over the users: whether [userId] is pushed. *)
Definition signed_in_before (thirtyDaysAgo : Z) (userId : jsstring) : bool :=
  match getUserById userId with
  | Throw _ => false
  | Return r =>
      if truthy_obj (user_error r) then false
      else
        match user r with
        | Some u =>
            match last_sign_in_at u with
            | Some lastSignIn => lastSignIn <? thirtyDaysAgo
            | None => false
            end
        | None => false
        end
  end.

Definition disable_scouts (inactiveUserIds : list jsstring)
  : M World (QueryResult (list jsstring)) :=
  mutation disable_fault
    (fun w => map id (List.filter (owned_active inactiveUserIds)
                        (map snd (map_to_list (scouts w)))))
    (fun w => set_scouts
                ((fun s => if owned_active inactiveUserIds s then deactivate s else s)
                   <$> scouts w) w).

Definition disable_inactive_users : M World unit :=
  let* now := Date_now in
  let thirtyDaysAgo := now - 30 * 24 * 60 * 60 * 1000 in
  let* r := select_active_scout_users in
  if truthy_obj (error r) then ret tt
  else
    match data r with
    | Some ((_ :: _) as activeScoutUsers) =>
        let uniqueUserIds := unique activeScoutUsers in
        let inactiveUserIds :=
          List.filter (signed_in_before thirtyDaysAgo) uniqueUserIds in
        match inactiveUserIds with
        | _ :: _ =>
            let* _ := disable_scouts inactiveUserIds in
            ret tt
        | [] => ret tt
        end
    | _ => ret tt
    end.

(** *** The scouts to run (lines 114 to 169) *)

Definition select_scout_single (scoutId : jsstring) : M World (QueryResult Scout) :=
  fun w =>
    match scout_check_fault with
    | Raises e => (Throw e, w)
    | Fails msg => (Return {| data := None; error := Some msg |}, w)
    | Healthy =>
        match scouts w !! scoutId with
        | Some row => (Return {| data := Some row; error := None |}, w)
        | None =>
            (Return {| data := None;
                       error := Some (lit "JSON object requested, multiple (or no) rows returned") |},
             w)
        end
    end.

Definition select_active_scouts : M World (QueryResult (list Scout)) :=
  query scouts_select_fault
    (fun w => List.filter is_active (map snd (map_to_list (scouts w)))).

Definition manual_trigger (scoutId : jsstring) : M World (list Scout) :=
  let* r := select_scout_single scoutId in
  match (if truthy_obj (error r) then None else data r) with
  | None =>
      throw (JsError (lit "Scout " ++ scoutId ++ lit " not found in database"))
  | Some scoutCheck =>
      if negb (is_active scoutCheck) then
        throw (JsError (lit "Scout " ++ scoutId
                          ++ lit " is not active. Please activate it in the settings."))
      else
        let scout := scoutCheck in
        if negb (isComplete scout) then
          throw (JsError (lit "Scout " ++ scoutId ++ lit " configuration is not complete"))
        else ret [scout]
  end.

Definition cron_trigger : M World (list Scout) :=
  let* r := select_active_scouts in
  match error r with
  | Some msg => throw (JsOther (lit "[object Object]") (Some msg))
  | None =>
      match data r with
      | Some scouts => ret (List.filter shouldRunScout scouts)
      | None =>
          throw (JsError (lit "Cannot read properties of null (reading 'filter')"))
      end
  end.

Definition select_scouts_to_run (req : Request) : M World (list Scout) :=
  match scoutId_param req with
  | Some ((_ :: _) as scoutId) => manual_trigger scoutId
  | _ => cron_trigger
  end.

(** *** Execution and report (lines 171 to 196) *)

Definition execute_and_report (scoutsToRun : list Scout) : M World Response :=
  do* Promise_all (map executeScoutAgent scoutsToRun) in
  ret {| body := ReportBody true (length scoutsToRun) (map summary scoutsToRun);
         status_code := 200 |}.

(** The [try] block of the handler. *)
(** The statements of the [try] block before the selection of the
    scouts, and those before their execution. *)
Definition before_selection : M World unit :=
  do* cleanup_stuck_executions in
  disable_inactive_users.

Definition before_execution (req : Request) : M World (list Scout) :=
  do* before_selection in
  select_scouts_to_run req.

Definition serve_try (req : Request) : M World Response :=
  if negb (truthy_str SUPABASE_URL) || negb (truthy_str SUPABASE_SERVICE_ROLE_KEY)
  then throw (JsError (lit "Supabase configuration missing"))
  else
    do* cleanup_stuck_executions in
    do* disable_inactive_users in
    let* scoutsToRun := select_scouts_to_run req in
    execute_and_report scoutsToRun.

Definition serve (req : Request) : M World Response :=
  if bool_decide (method req = lit "OPTIONS") then
    ret {| body := TextBody (lit "ok"); status_code := 200 |}
  else
    try_catch (serve_try req)
      (fun error =>
         ret {| body := ErrorBody (message_of error); status_code := 500 |}).

End WithEnvironment.

(** A response that reports on every scout of [run]: a report whose
    entries are those scouts in order. *)
Definition lists_every_scout (r : Response) (run : list Scout) : Prop :=
  exists success n entries,
    body r = ReportBody success n entries /\ map summary_id entries = map id run.

End Cron.

(** ** [route.ts]: the endpoint that sends a test message to Slack *)

Module Route.

Import Slack.

Definition TEST_SLACK_COOLDOWN_SECONDS : Z := 60.
Definition TEST_SLACK_COOLDOWN_MS : Z := TEST_SLACK_COOLDOWN_SECONDS * 1000.

(** [supabase.auth.getUser()]: [{ data: { user }, error }]; of the user
    only the [id] is read. *)
Record AuthResult := {
  auth_user : option jsstring;
  authError : option jsstring
}.

(** What [request.json()] gives, as far as the handler looks at it: the
    [webhookUrl] property of an object. Destructuring [null] throws. *)
Inductive RequestBody :=
| NullBody
| ObjectBody (webhookUrl : option jsstring).

Inductive Body :=
| ErrorBody (error : jsstring) (cooldownRemaining : option Z)
| SuccessBody (message : jsstring).

Record Response := {
  body : Body;
  status_code : Z
}.

Definition json_error (msg : jsstring) (st : Z) : Response :=
  {| body := ErrorBody msg None; status_code := st |}.

(** [Math.ceil(x / d)] for integers [x] and [0 < d]. *)
Definition ceil_div (x d : Z) : Z := - ((- x) / d).

Definition INVALID_FORMAT : jsstring :=
  lit "Invalid webhook URL format. Must be a valid Slack webhook URL (https://hooks.slack.com/services/T.../B.../...)".

Definition set_user_preferences (t : gmap jsstring Preferences) (w : World) : World :=
  {| user_preferences := t; outbox := outbox w; ticks := ticks w |}.

Section WithEnvironment.

Variable clock : nat -> Z.
Variable toLocaleString : Z -> jsstring.
Variable fetch : jsstring -> SlackPayload -> completion FetchResponse.
(** [createServerSupabaseClient()], the session and the request body. *)
Variable createServerSupabaseClient : completion unit.
Variable getUser : completion AuthResult.
Variable request_json : completion RequestBody.
(** The health of the three queries on [user_preferences]. *)
Variable select_fault : fault.
Variable update_fault : fault.
Variable insert_fault : fault.

(** [from("user_preferences").select(...).eq("user_id", uid).maybeSingle()];
    only [data] is read from the result. *)
Definition select_preferences_maybeSingle (uid : jsstring)
  : M World (option Preferences) :=
  fun w =>
    match select_fault with
    | Raises e => (Throw e, w)
    | Fails _ => (Return None, w)
    | Healthy => (Return (user_preferences w !! uid), w)
    end.

(** [update({ last_test_slack_at: now }).eq("user_id", uid)] *)
Definition update_last_test (uid : jsstring) (now : Z) : M World unit :=
  fun w =>
    match update_fault with
    | Raises e => (Throw e, w)
    | Fails _ => (Return tt, w)
    | Healthy =>
        (Return tt,
         set_user_preferences
           (alter (fun p => {| slack_webhook_url := slack_webhook_url p;
                               last_test_slack_at := Some now |})
              uid (user_preferences w)) w)
    end.

(** [insert({ user_id, slack_webhook_url, last_test_slack_at })]; a
    second row for one user is refused by the table. *)
Definition insert_preferences (uid webhookUrl : jsstring) (now : Z) : M World unit :=
  fun w =>
    match insert_fault with
    | Raises e => (Throw e, w)
    | Fails _ => (Return tt, w)
    | Healthy =>
        match user_preferences w !! uid with
        | Some _ => (Return tt, w)
        | None =>
            (Return tt,
             set_user_preferences
               (<[uid := {| slack_webhook_url := Some webhookUrl;
                            last_test_slack_at := Some now |}]>
                  (user_preferences w)) w)
        end
    end.

Definition test_mark : jsstring := [55356; 57225]%N.

Definition test_payload (now : Z) : SlackPayload :=
  {| text := lit "Test notification from Open Scouts";
     blocks :=
       [ header (test_mark ++ lit " Open Scouts Test Notification");
         section (lit "Great news! Your Slack notifications are configured correctly."
                    ++ [LF; LF]
                    ++ lit "When your scouts find results, you'll receive notifications here.");
         context (lit "Sent at " ++ toLocaleString now) ] |}.

(** The rate limit check (lines 56 to 72): the response when the request
    is refused. *)
Definition rate_limit (preferences : option Preferences) : M World (option Response) :=
  match preferences ≫= last_test_slack_at with
  | Some lastSentAt =>
      let* now := Slack.Date_now clock in
      let elapsed := now - lastSentAt in
      if elapsed <? TEST_SLACK_COOLDOWN_MS then
        let remainingSeconds := ceil_div (TEST_SLACK_COOLDOWN_MS - elapsed) 1000 in
        ret (Some {| body :=
                       ErrorBody (lit "Please wait " ++ of_Z remainingSeconds
                                    ++ lit " seconds before sending another test")
                         (Some (Z.max 1 remainingSeconds));
                     status_code := 429 |})
      else ret None
  | None => ret None
  end.

Definition POST_try : M World Response :=
  do* lift createServerSupabaseClient in
  let* auth := lift getUser in
  match (if truthy_obj (authError auth) then None else auth_user auth) with
  | None => ret (json_error (lit "Not authenticated") 401)
  | Some user_id =>
      let* body := lift request_json in
      let* providedWebhookUrl :=
        match body with
        | NullBody =>
            throw (JsError (lit "Cannot destructure property 'webhookUrl' of 'body' as it is null."))
        | ObjectBody u => ret u
        end in
      let* preferences := select_preferences_maybeSingle user_id in
      let webhookUrl :=
        or_str providedWebhookUrl (preferences ≫= slack_webhook_url) in
      if negb (truthy_str webhookUrl) then
        ret (json_error (lit "No Slack webhook URL configured") 400)
      else
        let webhookUrl := default [] webhookUrl in
        if negb (SLACK_WEBHOOK_PATTERN_test webhookUrl) then
          ret (json_error INVALID_FORMAT 400)
        else
          let* limited := rate_limit preferences in
          match limited with
          | Some refusal => ret refusal
          | None =>
              let* sent_at := Slack.Date_now clock in
              let payload := test_payload sent_at in
              let* slackResponse := post fetch webhookUrl payload in
              if negb (ok slackResponse) then
                let* errorText := lift (body_text slackResponse) in
                ret (json_error (lit "Slack returned error: " ++ errorText) 400)
              else
                let* now := Slack.Date_now clock in
                do* match preferences with
                    | Some _ => update_last_test user_id now
                    | None => insert_preferences user_id webhookUrl now
                    end in
                ret {| body := SuccessBody (lit "Test notification sent successfully");
                       status_code := 200 |}
          end
  end.

Definition POST : M World Response :=
  try_catch POST_try
    (fun error =>
       let errorMessage :=
         match error with
         | JsError m => m
         | JsOther _ _ => lit "Internal server error"
         end in
       ret (json_error errorMessage 500)).

End WithEnvironment.

End Route.

(** ** The due-date policy *)

Module Policy.

Section WithSchedule.

(** The interval that a frequency code stands for, and the optional
    match of an explicit time of day or day of week at a given instant;
    the specification names both and defines neither. *)
Variable interval_of : option jsstring -> Z.
Variable schedule_matches : Scout -> Z -> bool.
(** The timeout after which a running execution counts as stuck. *)
Variable timeout : Z.

(** Modelled from the spec: [helpers.ts], where the handler's
    [shouldRunScout] lives, is not among the sources. Section 4.1 of the
    specification: a task with no prior execution is always due;
    otherwise the time elapsed since the start of the last execution is
    compared with the interval implied by the frequency, refined by the
    explicit schedule when present; and while the most recent execution
    is still running the task is due only once that execution is older
    than the stuck-execution timeout. *)
Definition isDue (now : Z) (task : Scout) (mostRecentExecution : option Execution)
  : bool :=
  match mostRecentExecution with
  | None => true
  | Some last =>
      let elapsed := now - started_at last in
      (interval_of (frequency task) <=? elapsed)
      && schedule_matches task now
      && (if bool_decide (status last = lit "running")
          then timeout <? elapsed
          else true)
  end.

End WithSchedule.

End Policy.


(** ** [firecrawl/regenerate/route.ts]: a new Firecrawl key on request *)

Module Regenerate.

Record SessionUser := {
  session_id : jsstring;
  session_email : option jsstring
}.

Record AuthResult := {
  auth_user : option SessionUser;
  authError : option jsstring
}.

(** What [regenerateFirecrawlKey] resolves to. *)
Record KeyResult := {
  key_success : bool;
  key_error : option jsstring;
  alreadyExisted : option bool
}.

Inductive Body :=
| ErrorBody (error : jsstring)
| SuccessBody (alreadyExisted : option bool).

Record Response := {
  body : Body;
  status_code : Z
}.

(** The world of the endpoint: the calls made to [regenerateFirecrawlKey],
    with the user id and the email given, oldest first. *)
Record World := {
  regenerations : list (jsstring * jsstring)
}.

Section WithEnvironment.

Variable createServerSupabaseClient : completion unit.
Variable getUser : completion AuthResult.
(** [lib/firecrawl-partner], which the endpoint imports. *)
Variable regenerateFirecrawlKey : jsstring -> jsstring -> completion KeyResult.

Definition call_regenerate (uid email : jsstring) : M World KeyResult :=
  fun w => (regenerateFirecrawlKey uid email,
            {| regenerations := regenerations w ++ [(uid, email)] |}).

Definition POST : M World Response :=
  try_catch
    (do* lift createServerSupabaseClient in
     let* auth := lift getUser in
     match (if truthy_obj (authError auth) then None else auth_user auth) with
     | None => ret {| body := ErrorBody (lit "Unauthorized"); status_code := 401 |}
     | Some user =>
         if negb (truthy_str (session_email user)) then
           ret {| body := ErrorBody (lit "User email not found"); status_code := 400 |}
         else
           let* result :=
             call_regenerate (session_id user) (default [] (session_email user)) in
           if negb (key_success result) then
             ret {| body :=
                      ErrorBody
                        (default []
                           (or_str (key_error result)
                              (Some (lit "Failed to regenerate API key"))));
                    status_code := 500 |}
           else
             ret {| body := SuccessBody (alreadyExisted result); status_code := 200 |}
     end)
    (fun error =>
       ret {| body := ErrorBody (lit "Internal server error"); status_code := 500 |}).

End WithEnvironment.

End Regenerate.

(** ** The route that ends the sign-in: the session is exchanged, a
       Firecrawl key is requested when the user has none, and the browser
       is redirected *)

Module Callback.

(** [encodeURIComponent]: the characters that are kept. *)
Definition is_unreserved (c : N) : bool :=
  is_upper c || is_lower c || is_digit c
  || bool_decide (c ∈ lit "-_.!~*'()").

Definition hex_digit (n : N) : N :=
  (if n <? 10 then 48 + n else 55 + n)%N.

Definition percent (byte : N) : jsstring :=
  [37%N; hex_digit (byte / 16); hex_digit (byte mod 16)].

(** The bytes of a code point in UTF-8. *)
Definition utf8 (cp : N) : list N :=
  (if cp <? 128 then [cp]
   else if cp <? 2048 then [192 + cp / 64; 128 + cp mod 64]
   else if cp <? 65536 then
     [224 + cp / 4096; 128 + (cp / 64) mod 64; 128 + cp mod 64]
   else
     [240 + cp / 262144; 128 + (cp / 4096) mod 64; 128 + (cp / 64) mod 64;
      128 + cp mod 64])%N.

Definition is_high_surrogate (c : N) : bool := in_range 55296 56319 c.
Definition is_low_surrogate (c : N) : bool := in_range 56320 57343 c.

Definition URIError : thrown := JsError (lit "URI malformed").

Definition escape (cp : N) (rest : completion jsstring) : completion jsstring :=
  match rest with
  | Return r => Return (concat (map percent (utf8 cp)) ++ r)
  | Throw e => Throw e
  end.

(** [encodeURIComponent(s)]: a surrogate without its pair throws. *)
Fixpoint encodeURIComponent (s : jsstring) : completion jsstring :=
  match s with
  | [] => Return []
  | c :: rest =>
      if is_unreserved c then
        match encodeURIComponent rest with
        | Return r => Return (c :: r)
        | Throw e => Throw e
        end
      else if is_high_surrogate c then
        match rest with
        | d :: rest' =>
            if is_low_surrogate d then
              escape (65536 + (c - 55296) * 1024 + (d - 56320))%N
                (encodeURIComponent rest')
            else Throw URIError
        | [] => Throw URIError
        end
      else if is_low_surrogate c then Throw URIError
      else escape c (encodeURIComponent rest)
  end.


(** The columns of [user_preferences] that the route selects. *)
Record KeyPreferences := {
  firecrawl_api_key : option jsstring;
  firecrawl_key_status : option jsstring
}.

(** The world of the route: the preferences table, and the calls made to
    [createFirecrawlKeyForUser], with the user id and the email given. *)
Record World := {
  key_preferences : gmap jsstring KeyPreferences;
  key_requests : list (jsstring * jsstring)
}.

(** The request: the origin of its URL and the three parameters read with
    [searchParams.get]. *)
Record Request := {
  origin : jsstring;
  code : option jsstring;
  redirectTo : option jsstring;
  pendingQuery : option jsstring
}.

Record SessionUser := {
  session_id : option jsstring;
  session_email : option jsstring
}.

Definition needsKey (preferences : option KeyPreferences) : bool :=
  negb (truthy_str (preferences ≫= firecrawl_api_key))
  || negb (bool_decide (preferences ≫= firecrawl_key_status = Some (lit "active"))).

Section WithEnvironment.

Variable createServerSupabaseClient : completion unit.
(** [exchangeCodeForSession(code)]: the [error] of its result. *)
Variable exchangeCodeForSession : jsstring -> completion (option jsstring).
(** [getUser()]: the [user] of its result. *)
Variable getUser : completion (option SessionUser).
Variable preferences_fault : fault.

(** [supabaseServer.from("user_preferences").select(...).eq("user_id", uid).single()];
    only [data] is read. *)
Definition select_key_preferences (uid : jsstring) : M World (option KeyPreferences) :=
  fun w =>
    match preferences_fault with
    | Raises e => (Throw e, w)
    | Fails _ => (Return None, w)
    | Healthy => (Return (key_preferences w !! uid), w)
    end.

(** [createFirecrawlKeyForUser(uid, email).catch(...)]: the call is made and
    not awaited, and its rejection is caught. *)
Definition request_key (uid email : jsstring) : M World unit :=
  fun w => (Return tt,
            {| key_preferences := key_preferences w;
               key_requests := key_requests w ++ [(uid, email)] |}).

Definition login_error (request : Request) : jsstring :=
  origin request ++ lit "/login?error=auth_callback_error".

(** The handler; it returns the URL of the redirect. *)
Definition GET (request : Request) : M World jsstring :=
  let redirectTo := default [] (or_str (redirectTo request) (Some (lit "/"))) in
  let pendingQuery := default [] (or_str (pendingQuery request) (Some [])) in
  match code request with
  | Some ((_ :: _) as code) =>
      do* lift createServerSupabaseClient in
      let* error := lift (exchangeCodeForSession code) in
      if truthy_obj error then ret (login_error request)
      else
        let* user := lift getUser in
        do* match user with
            | Some u =>
                if truthy_str (session_id u) && truthy_str (session_email u) then
                  let uid := default [] (session_id u) in
                  let email := default [] (session_email u) in
                  let* preferences := select_key_preferences uid in
                  if needsKey preferences then request_key uid email else ret tt
                else ret tt
            | None => ret tt
            end in
        if truthy_str (Some pendingQuery) then
          let* encoded := lift (encodeURIComponent pendingQuery) in
          ret (origin request ++ lit "/?pendingQuery=" ++ encoded)
        else ret (origin request ++ redirectTo)
  | _ => ret (login_error request)
  end.

End WithEnvironment.

End Callback.

(** ** Sample data *)

Module Samples.

Definition scout_of (sid uid : string) (active : bool) : Scout :=
  {| id := lit sid; user_id := lit uid;
     title := Some (lit "Ramen openings"); goal := Some (lit "Find new ramen shops");
     description := Some (lit "Weekly scan"); location := Some {| city := Some (lit "Tokyo") |};
     search_queries := Some [lit "new ramen shop"];
     frequency := Some (lit "daily"); is_active := active |}.

Definition long_response : ScoutResponse := {| response := repeat 97%N 2001 |}.

Definition now0 : Z := 1765540800000.
Definition minutes (n : Z) : Z := n * 60 * 1000.
Definition days (n : Z) : Z := n * 24 * 60 * 60 * 1000.

Definition noon : nat -> Z := fun _ => now0.

Definition no_locale : Z -> jsstring := fun _ => lit "2025/12/12 21:00:00".

Definition running_since (sid : string) (started : Z) : Execution :=
  {| scout_id := lit sid; status := lit "running"; started_at := started;
     completed_at := None; error_message := None |}.

(** Two running executions, one started ten minutes ago and one a minute
    ago; three active scouts, of a user who signed in forty days ago, of
    one who signed in yesterday and of one that the authentication service
    does not know. *)
Definition world : Cron.World :=
  {| Cron.scout_executions :=
       {[ lit "e1" := running_since "s1" (now0 - minutes 10);
          lit "e2" := running_since "s2" (now0 - minutes 1) ]};
     Cron.scouts :=
       {[ lit "s1" := scout_of "s1" "u1" true;
          lit "s2" := scout_of "s2" "u2" true;
          lit "s3" := scout_of "s3" "ghost" true ]};
     Cron.ticks := 0 |}.

Definition directory (uid : jsstring) : completion Cron.UserResponse :=
  if bool_decide (uid = lit "u1") then
    Return {| Cron.user := Some {| Cron.last_sign_in_at := Some (now0 - days 40) |};
              Cron.user_error := None |}
  else if bool_decide (uid = lit "u2") then
    Return {| Cron.user := Some {| Cron.last_sign_in_at := Some (now0 - days 1) |};
              Cron.user_error := None |}
  else
    Return {| Cron.user := None; Cron.user_error := Some (lit "User not found") |}.

(** The agent fails on the scout [s3] and succeeds on the others. *)
Definition agent (s : Scout) : Cron.Promise :=
  if bool_decide (id s = lit "s3") then
    {| Cron.settled_at := 2;
       Cron.outcome := Cron.Rejected (JsError (lit "Firecrawl request failed")) |}
  else {| Cron.settled_at := 5; Cron.outcome := Cron.Fulfilled |}.

Definition sample_url : option jsstring := Some (lit "https://project.supabase.co").
Definition sample_key : option jsstring := Some (lit "service-role-key").

Definition cron_request : Cron.Request :=
  {| Cron.method := lit "POST"; Cron.scoutId_param := None |}.

Definition manual_request (sid : string) : Cron.Request :=
  {| Cron.method := lit "POST"; Cron.scoutId_param := Some (lit sid) |}.

Definition webhook : jsstring :=
  lit "https://hooks.slack.com/services/T0123ABCD/B0456EFGH/abcDEF123ghi".

(** Two users who sent a test thirty seconds ago: one with a webhook in
    the preferences, one without. *)
Definition slack_world : Slack.World :=
  {| Slack.user_preferences :=
       {[ lit "u1" := {| slack_webhook_url := Some webhook;
                         last_test_slack_at := Some (now0 - 30000) |};
          lit "u2" := {| slack_webhook_url := None;
                         last_test_slack_at := Some (now0 - 30000) |} ]};
     Slack.outbox := [];
     Slack.ticks := 0 |}.

Definition slack_ok : jsstring -> Slack.SlackPayload -> completion FetchResponse :=
  fun _ _ => Return {| ok := true; http_status := 200; body_text := Return (lit "ok") |}.

Definition signed_in (uid : string) : completion Route.AuthResult :=
  Return {| Route.auth_user := Some (lit uid); Route.authError := None |}.

(** A user whose last test is two minutes old, and one without a row. *)
Definition rested_world : Slack.World :=
  {| Slack.user_preferences :=
       {[ lit "u1" := {| slack_webhook_url := Some webhook;
                         last_test_slack_at := Some (now0 - 120000) |} ]};
     Slack.outbox := [];
     Slack.ticks := 0 |}.

Definition rested_row : Preferences :=
  {| slack_webhook_url := Some webhook; last_test_slack_at := Some (now0 - 120000) |}.

Definition body_without_url : completion Route.RequestBody :=
  Return (Route.ObjectBody None).

Definition body_with_url : completion Route.RequestBody :=
  Return (Route.ObjectBody (Some webhook)).

(** The end of a sign-in: a request with a code and a pending query, and a
    user without a key. *)
Definition callback_world : Callback.World :=
  {| Callback.key_preferences := ∅; Callback.key_requests := [] |}.


Definition callback_without_code : Callback.Request :=
  {| Callback.origin := lit "https://scouts.example";
     Callback.code := None;
     Callback.redirectTo := None;
     Callback.pendingQuery := None |}.

Definition session_user : completion (option Callback.SessionUser) :=
  Return (Some {| Callback.session_id := Some (lit "u1");
                  Callback.session_email := Some (lit "u1@scouts.example") |}).

Definition exchange_ok : jsstring -> completion (option jsstring) :=
  fun _ => Return None.

End Samples.

(** ** Properties *)

Import Slack Cron.

(** *** The notifier *)

Example slack_markdown_sample :
  slack_markdown (lit "## News **hot** see [site](http://a.b) **open")
  = lit "*News *hot* see <http://a.b|site> **open".
Proof. vm_compute. reflexivity. Qed.

Example slack_markdown_stars :
  slack_markdown (lit "***a** ****") = lit "**a* **".
Proof. vm_compute. reflexivity. Qed.

Example escapeSlackText_sample :
  escapeSlackText (lit "a<b>&c") = lit "a&lt;b&gt;&amp;c".
Proof. vm_compute. reflexivity. Qed.

Example webhook_pattern_samples :
  SLACK_WEBHOOK_PATTERN_test Samples.webhook = true
  /\ SLACK_WEBHOOK_PATTERN_test (Samples.webhook ++ lit "/") = false
  /\ SLACK_WEBHOOK_PATTERN_test (lit "https://hooks.slack.com/services/T/B1/x") = false
  /\ SLACK_WEBHOOK_PATTERN_test [] = false.
Proof. repeat split; vm_compute; reflexivity. Qed.

(** The length of the text of the result section: a response whose
    rewritten text is longer than [MAX_TEXT_LENGTH] gives 2001 code units,
    any other is kept whole. *)
Lemma cleanResponse_length (r : ScoutResponse) :
  length (cleanResponse r)
  = if (MAX_TEXT_LENGTH <? length (slack_markdown (response r)))%nat
    then 2001%nat
    else length (slack_markdown (response r)).
Proof.
  unfold cleanResponse. destruct (_ <? _)%nat eqn:Hlong; [|done].
  apply Nat.ltb_lt in Hlong. unfold MAX_TEXT_LENGTH in *.
  rewrite length_app, length_take. change (length truncation_marker) with 16%nat. lia.
Qed.

(** C9, at an input where it fails: for a response of 2001 letters [a],
    which the markdown rewriting leaves as it is, the text of the result
    section built by [formatSlackMessage] is 2001 code units long: the first
    1985 code units of the response followed by the 16 code units of the
    marker, one more than the 2000 that [MAX_TEXT_LENGTH] announces. *)
Theorem formatSlackMessage_result_text_2001 :
  forall (clock : nat -> Z) (toLocaleString : Z -> jsstring) (w : Slack.World),
  exists p w',
    formatSlackMessage clock toLocaleString
      (Samples.scout_of "s1" "u1" true) Samples.long_response w = (Return p, w')
    /\ result_section_text p
       = Some (repeat 97%N 1985 ++ [LF; LF] ++ lit "...(truncated)")
    /\ (length <$> result_section_text p) = Some 2001%nat.
Proof.
  intros clock toLocaleString w.
  eexists _, _. split.
  - cbv [formatSlackMessage bind ret required Slack.Date_now
           Samples.scout_of title goal]. reflexivity.
  - split; vm_compute; reflexivity.
Qed.

(** C8: whatever the preferences query, the webhook and the clock do, and
    whatever the scout and the response are, [sendSlackNotification]
    returns normally: it never throws to its caller. *)
Theorem sendSlackNotification_never_throws :
  forall (clock : nat -> Z) (toLocaleString : Z -> jsstring)
         (fetch : jsstring -> SlackPayload -> completion FetchResponse)
         (prefs_fault : fault) (scout : Scout) (scoutResponse : ScoutResponse)
         (w : Slack.World),
  exists w',
    sendSlackNotification clock toLocaleString fetch prefs_fault
      scout scoutResponse w = (Return tt, w').
Proof.
  intros. unfold sendSlackNotification, try_catch.
  match goal with |- context [match ?b with _ => _ end] => destruct b as [[[]|e] w1] end.
  - by exists w1.
  - by exists w1.
Qed.

(** *** The due-date policy *)

(** C7: [isDue] is a function of its arguments, and for a task with no
    prior execution it is true, whatever the frequency, the schedule and
    the instant. *)
Theorem isDue_without_history :
  forall (interval_of : option jsstring -> Z) (schedule_matches : Scout -> Z -> bool)
         (timeout now : Z) (task : Scout),
    Policy.isDue interval_of schedule_matches timeout now task None = true.
Proof. reflexivity. Qed.

(** *** The stuck executions *)

Section Cleanup.

Variable clock : nat -> Z.
Variable stuck_select_fault : fault.
Variable execution_update_fault : jsstring -> fault.

(** One turn of the loop over the stuck executions. *)
Let turn (execution : jsstring * Execution) : M Cron.World unit :=
  let* completed := Cron.Date_now clock in
  let* _ := update_failed execution_update_fault execution.1 completed in
  ret tt.

Lemma for_of_invariant {W A} (P : W -> Prop) (body : A -> M W unit) :
  (forall x w, P w -> P (body x w).2) ->
  forall l w, P w -> P (for_of l body w).2.
Proof.
  intros Hbody l. induction l as [|x l IH]; intros w Hw; simpl; [done|].
  unfold bind. specialize (Hbody x w Hw).
  destruct (body x w) as [[[]|e] w1]; simpl in *; auto.
Qed.

Lemma turn_scouts x w : scouts (turn x w).2 = scouts w.
Proof.
  unfold turn, bind, update_failed, mutation, Cron.Date_now, ret. simpl.
  by destruct (execution_update_fault x.1).
Qed.

Lemma turn_ticks x w : Cron.ticks (turn x w).2 = S (Cron.ticks w).
Proof.
  unfold turn, bind, update_failed, mutation, Cron.Date_now, ret. simpl.
  by destruct (execution_update_fault x.1).
Qed.

(** A turn changes at most the row of its own execution. *)
Lemma turn_other x w i :
  i ≠ x.1 -> scout_executions (turn x w).2 !! i = scout_executions w !! i.
Proof.
  intros Hne.
  unfold turn, bind, update_failed, mutation, Cron.Date_now, ret. simpl.
  destruct (execution_update_fault x.1); simpl; [|done..].
  by rewrite lookup_alter_ne.
Qed.

Lemma turn_healthy x w :
  execution_update_fault x.1 = Healthy ->
  turn x w =
    (Return tt,
     {| scout_executions :=
          alter (mark_failed (clock (Cron.ticks w))) x.1 (scout_executions w);
        scouts := scouts w;
        Cron.ticks := S (Cron.ticks w) |}).
Proof.
  intros H.
  unfold turn, bind, update_failed, mutation, Cron.Date_now, ret. simpl.
  by rewrite H.
Qed.

Lemma loop_other l w i :
  ~ In i (map fst l) ->
  scout_executions (for_of l turn w).2 !! i = scout_executions w !! i.
Proof.
  revert w. induction l as [|x l IH]; intros w Hnot; simpl; [done|].
  simpl in Hnot. unfold bind.
  pose proof (turn_other x w i) as Hturn.
  destruct (turn x w) as [[[]|e] w1]; simpl in *.
  - rewrite IH by tauto. apply Hturn. intros ->. tauto.
  - apply Hturn. intros ->. tauto.
Qed.

Lemma mark_failed_twice t t' e : mark_failed t (mark_failed t' e) = mark_failed t e.
Proof. done. Qed.

Lemma loop_hit l w i :
  (forall j, execution_update_fault j = Healthy) ->
  In i (map fst l) ->
  exists k, (Cron.ticks w <= k)%nat /\
    scout_executions (for_of l turn w).2 !! i
    = mark_failed (clock k) <$> scout_executions w !! i.
Proof.
  intros Hupd. revert w. induction l as [|x l IH]; intros w Hin; simpl in *; [done|].
  unfold bind. rewrite (turn_healthy x w (Hupd _)).
  set (w1 := {| scout_executions := _ |}).
  destruct (decide (i ∈ map fst l)) as [Hl|Hl]; rewrite list_elem_of_In in Hl.
  - destruct (IH w1 Hl) as (k & Hk & ->). exists k. split; [simpl in Hk; lia|].
    subst w1; simpl. rewrite lookup_alter. case_decide as Hx; [|done].
    subst i. destruct (scout_executions w !! x.1); simpl; [|done].
    by rewrite mark_failed_twice.
  - rewrite loop_other by done. destruct Hin as [<-|]; [|done].
    exists (Cron.ticks w). split; [lia|]. subst w1; simpl.
    by rewrite lookup_alter_eq.
Qed.

Lemma in_stuck_rows (m : gmap jsstring Execution) threshold i :
  In i (map fst (List.filter (fun r => is_stuck threshold r.2) (map_to_list m)))
  <-> exists e, m !! i = Some e /\ is_stuck threshold e = true.
Proof.
  rewrite in_map_iff. split.
  - intros ([j e] & <- & Hin). apply filter_In in Hin as [Hin Hst].
    apply list_elem_of_In, elem_of_map_to_list in Hin. eauto.
  - intros (e & Hm & Hst). exists (i, e). split; [done|].
    apply filter_In. split; [|done].
    by apply list_elem_of_In, elem_of_map_to_list.
Qed.

(** The pass, once the query has answered. *)
Lemma cleanup_healthy w :
  stuck_select_fault = Healthy ->
  cleanup_stuck_executions clock stuck_select_fault execution_update_fault w
  = for_of (List.filter (fun r => is_stuck (clock (Cron.ticks w) - 3 * 60 * 1000) r.2)
              (map_to_list (scout_executions w)))
      turn
      {| scout_executions := scout_executions w; scouts := scouts w;
         Cron.ticks := S (Cron.ticks w) |}.
Proof.
  intros H. unfold cleanup_stuck_executions, bind, select_stuck, query, Cron.Date_now.
  rewrite H. simpl. by destruct (List.filter _ _).
Qed.

(** C6: the pass over the stuck executions leaves the table of scouts,
    and so every field of every scout, the active flag among them, exactly
    as it was; this holds whatever the store answers. *)
Theorem cleanup_leaves_scouts :
  forall w : Cron.World,
    scouts (cleanup_stuck_executions clock stuck_select_fault execution_update_fault w).2
    = scouts w.
Proof.
  intros w. unfold cleanup_stuck_executions, bind, select_stuck, query, Cron.Date_now.
  destruct stuck_select_fault; simpl; [|done..].
  destruct (List.filter _ _) as [|x l]; [done|].
  apply (for_of_invariant (fun w' => scouts w' = scouts w)); [|done].
  intros y w' Hw'. change (scouts (turn y w').2 = scouts w).
  by rewrite turn_scouts.
Qed.

(** C2: when the store answers the queries of the pass, every execution
    that is [running] and started before [now - 3 * 60 * 1000], [now] being
    the clock at the start of the pass, ends as [failed], with a completion
    time read from the clock during the pass and the fixed timeout message,
    its other columns kept; a running execution that started at or after
    that instant, and any execution that is not running, is left as it
    was. *)
Theorem cleanup_marks_stuck_failed :
  forall (w : Cron.World) (i : jsstring) (e : Execution),
    stuck_select_fault = Healthy ->
    (forall j, execution_update_fault j = Healthy) ->
    scout_executions w !! i = Some e ->
    let now := clock (Cron.ticks w) in
    let w' := (cleanup_stuck_executions clock stuck_select_fault
                 execution_update_fault w).2 in
    (status e = lit "running" -> started_at e < now - 3 * 60 * 1000 ->
     exists k, (Cron.ticks w < k)%nat /\
       scout_executions w' !! i
       = Some {| scout_id := scout_id e;
                 status := lit "failed";
                 started_at := started_at e;
                 completed_at := Some (clock k);
                 error_message :=
                   Some (lit "Execution timed out after 3 minutes (Supabase Edge Function limit)") |})
    /\ (status e = lit "running" -> now - 3 * 60 * 1000 <= started_at e ->
        scout_executions w' !! i = Some e)
    /\ (status e ≠ lit "running" -> scout_executions w' !! i = Some e).
Proof.
  intros w i e Hsel Hupd Hi now w'. subst w'. rewrite (cleanup_healthy w Hsel).
  fold now. set (l := List.filter _ _). set (w1 := {| scout_executions := _ |}).
  assert (Hout : is_stuck (now - 3 * 60 * 1000) e = false ->
                 scout_executions (for_of l turn w1).2 !! i = Some e).
  { intros Hns. rewrite loop_other; [done|].
    subst l. rewrite in_stuck_rows. intros (e' & He' & Hst). congruence. }
  split; [|split].
  - intros Hrun Hold.
    destruct (loop_hit l w1 i Hupd) as (k & Hk & ->).
    { subst l. apply in_stuck_rows. exists e. split; [done|].
      unfold is_stuck. rewrite bool_decide_eq_true_2 by done.
      simpl. by apply Z.ltb_lt. }
    exists k. split; [simpl in Hk; lia|]. subst w1; simpl. by rewrite Hi.
  - intros _ Hyoung. apply Hout. unfold is_stuck.
    rewrite andb_false_iff. right. by apply Z.ltb_ge.
  - intros Hnr. apply Hout. unfold is_stuck.
    by rewrite bool_decide_eq_false_2.
Qed.

End Cleanup.

(** *** The scouts of users who stopped signing in *)

Section Sweep.

Variable clock : nat -> Z.
Variable scout_users_fault : fault.
Variable disable_fault : fault.
Variable getUserById : jsstring -> completion UserResponse.

Let sweep : M Cron.World unit :=
  disable_inactive_users clock scout_users_fault disable_fault getUserById.

(** The owners of the active scouts, and those among them that the pass
    finds to have signed in before the threshold. *)
Let owners (w : Cron.World) : list jsstring :=
  map user_id (List.filter is_active (map snd (map_to_list (scouts w)))).

Let dormant (w : Cron.World) : list jsstring :=
  List.filter
    (signed_in_before getUserById (clock (Cron.ticks w) - 30 * 24 * 60 * 60 * 1000))
    (unique (owners w)).

Let disable (ids : list jsstring) (s : Scout) : Scout :=
  if owned_active ids s then deactivate s else s.

Lemma in_unique_from seen xs x :
  In x (unique_from seen xs) <-> In x xs /\ ~ In x seen.
Proof.
  revert seen. induction xs as [|y xs IH]; intros seen; simpl; [tauto|].
  case_bool_decide as Hy; rewrite ?list_elem_of_In in Hy.
  - rewrite IH. split; [tauto|]. intros [[->|] ?]; tauto.
  - simpl. rewrite IH. simpl. split.
    + intros [->|[? ?]]; [tauto|]. tauto.
    + intros [[->|Hx] Hs]; [tauto|].
      destruct (decide (y = x)) as [->|]; [tauto|]. right. tauto.
Qed.

Lemma in_unique xs x : In x (unique xs) <-> In x xs.
Proof. unfold unique. rewrite in_unique_from. simpl. tauto. Qed.

Lemma in_owners w sid s :
  scouts w !! sid = Some s -> is_active s = true -> In (user_id s) (owners w).
Proof.
  intros Hs Ha. unfold owners. apply in_map. apply filter_In. split; [|done].
  apply in_map_iff. exists (sid, s). split; [done|].
  by apply list_elem_of_In, elem_of_map_to_list.
Qed.

Lemma disable_nil (m : gmap jsstring Scout) : disable [] <$> m = m.
Proof.
  apply map_eq. intros i. rewrite lookup_fmap.
  destruct (m !! i) as [s|]; [|done]. simpl. unfold disable, owned_active.
  rewrite bool_decide_eq_false_2; [done|]. apply not_elem_of_nil.
Qed.

(** The table of scouts after the pass: as before, or with the bulk update
    applied for the users found dormant. *)
Lemma sweep_scouts w :
  scouts (sweep w).2 = scouts w
  \/ scouts (sweep w).2 = disable (dormant w) <$> scouts w.
Proof.
  unfold sweep, disable_inactive_users, bind, select_active_scout_users, query,
    Cron.Date_now.
  destruct scout_users_fault; simpl; [|by left..].
  fold (owners w). destruct (owners w) as [|u us] eqn:Ho; [by left|].
  fold (dormant w). unfold dormant. rewrite Ho.
  destruct (List.filter _ _) as [|d ds]; [by left|].
  unfold disable_scouts, mutation, ret.
  destruct disable_fault; simpl; [by right|by left..].
Qed.

Lemma sweep_healthy w :
  scout_users_fault = Healthy -> disable_fault = Healthy ->
  scouts (sweep w).2 = disable (dormant w) <$> scouts w.
Proof.
  intros Hu Hd.
  unfold sweep, disable_inactive_users, bind, select_active_scout_users, query,
    Cron.Date_now.
  rewrite Hu. simpl. fold (owners w).
  destruct (owners w) as [|u us] eqn:Ho.
  { simpl. unfold dormant. rewrite Ho. by rewrite disable_nil. }
  fold (dormant w). unfold dormant. rewrite Ho.
  destruct (List.filter _ _) as [|d ds]; simpl.
  { by rewrite disable_nil. }
  unfold disable_scouts, mutation, ret. by rewrite Hd.
Qed.

(** A scout whose owner the pass does not find dormant keeps its row,
    whatever the store answers. *)
Lemma sweep_keeps w sid s :
  scouts w !! sid = Some s ->
  signed_in_before getUserById
    (clock (Cron.ticks w) - 30 * 24 * 60 * 60 * 1000) (user_id s) = false ->
  scouts (sweep w).2 !! sid = Some s.
Proof.
  intros Hs Hno. destruct (sweep_scouts w) as [->| ->]; [done|].
  rewrite lookup_fmap, Hs. simpl. unfold disable, owned_active.
  rewrite bool_decide_eq_false_2; [done|].
  rewrite list_elem_of_In. unfold dormant. rewrite filter_In. intros [_ ?]. congruence.
Qed.

(** C4: when the store answers the two queries of the pass, every active
    scout whose owner last signed in before [now - 30 days], [now] being
    the clock at the start of the pass, is deactivated, its other columns
    kept; and a scout whose owner last signed in at or after that instant
    keeps its row. *)
Theorem sweep_deactivates_dormant :
  forall (w : Cron.World) (sid : jsstring) (s : Scout) (lastSignIn : Z),
    scout_users_fault = Healthy ->
    disable_fault = Healthy ->
    scouts w !! sid = Some s ->
    getUserById (user_id s)
    = Return {| user := Some {| last_sign_in_at := Some lastSignIn |};
                user_error := None |} ->
    let now := clock (Cron.ticks w) in
    let w' := (disable_inactive_users clock scout_users_fault disable_fault
                 getUserById w).2 in
    (lastSignIn < now - 30 * 24 * 60 * 60 * 1000 -> is_active s = true ->
     scouts w' !! sid = Some (deactivate s)
     /\ (is_active <$> scouts w' !! sid) = Some false)
    /\ (now - 30 * 24 * 60 * 60 * 1000 <= lastSignIn ->
        scouts w' !! sid = Some s).
Proof.
  intros w sid s t Hu Hd Hs Hauth now w'. subst w'. fold sweep. split.
  - intros Hold Hact. rewrite (sweep_healthy w Hu Hd), lookup_fmap, Hs. simpl.
    unfold disable, owned_active. rewrite Hact, bool_decide_eq_true_2; [done|].
    apply list_elem_of_In. unfold dormant. apply filter_In. split.
    + apply in_unique. by eapply in_owners.
    + unfold signed_in_before. rewrite Hauth. simpl. by apply Z.ltb_lt.
  - intros Hrecent. apply sweep_keeps; [done|].
    unfold signed_in_before. rewrite Hauth. simpl. by apply Z.ltb_ge.
Qed.

(** C5, as the code has it: a user whose lookup answers with an error, the
    one for an unknown user included, is skipped by the pass, and so is a
    user whose lookup throws: every scout of such a user keeps its row,
    active flag included. *)
Theorem sweep_skips_failed_lookup :
  forall (w : Cron.World) (sid : jsstring) (s : Scout),
    scouts w !! sid = Some s ->
    (exists r msg, getUserById (user_id s) = Return r /\ user_error r = Some msg)
    \/ (exists e, getUserById (user_id s) = Throw e) ->
    scouts (disable_inactive_users clock scout_users_fault disable_fault
              getUserById w).2 !! sid = Some s.
Proof.
  intros w sid s Hs Hfail. apply sweep_keeps; [done|].
  unfold signed_in_before.
  destruct Hfail as [(r & msg & -> & Hr)|(e & ->)]; [|done].
  by rewrite Hr.
Qed.

End Sweep.

(** *** Selection, execution and report *)

Lemma bind_assoc {W A B C} (m : M W A) (f : A -> M W B) (g : B -> M W C) (w : W) :
  bind (bind m f) g w = bind m (fun a => bind (f a) g) w.
Proof. unfold bind. by destruct (m w) as [[a|e] w1]. Qed.

Lemma first_rejection_none (ps : list Promise) :
  (forall p, In p ps -> outcome p = Fulfilled) -> first_rejection ps = None.
Proof.
  induction ps as [|p ps IH]; intros H; simpl; [done|].
  rewrite (H p) by (simpl; tauto). apply IH. intros q Hq. apply H. simpl. tauto.
Qed.

Lemma first_rejection_single (ps : list Promise) (k : nat) (p : Promise) (e : thrown) :
  ps !! k = Some p ->
  outcome p = Rejected e ->
  (forall j q, j ≠ k -> ps !! j = Some q -> outcome q = Fulfilled) ->
  first_rejection ps = Some (settled_at p, e).
Proof.
  revert k. induction ps as [|a ps IH]; intros k Hk He Hrest; [done|].
  destruct k as [|k]; simpl in *.
  - injection Hk as ->. rewrite He.
    rewrite first_rejection_none; [done|].
    intros q [j Hq]%list_elem_of_In%list_elem_of_lookup.
    by apply (Hrest (S j)).
  - rewrite (Hrest 0%nat a) by done.
    apply (IH k); [done..|]. intros j q Hj Hq. apply (Hrest (S j)); [lia|done].
Qed.

Section Handler.

Variable clock : nat -> Z.
Variable SUPABASE_URL : option jsstring.
Variable SUPABASE_SERVICE_ROLE_KEY : option jsstring.
Variable stuck_select_fault : fault.
Variable execution_update_fault : jsstring -> fault.
Variable scout_users_fault : fault.
Variable disable_fault : fault.
Variable scout_check_fault : fault.
Variable scouts_select_fault : fault.
Variable getUserById : jsstring -> completion UserResponse.
Variable shouldRunScout : Scout -> bool.
Variable executeScoutAgent : Scout -> Promise.

Local Abbreviation prelude :=
  (before_selection clock stuck_select_fault execution_update_fault
     scout_users_fault disable_fault getUserById).

Local Abbreviation selection :=
  (before_execution clock stuck_select_fault execution_update_fault
     scout_users_fault disable_fault scout_check_fault scouts_select_fault
     getUserById shouldRunScout).

Local Abbreviation handler :=
  (serve clock SUPABASE_URL SUPABASE_SERVICE_ROLE_KEY stuck_select_fault
     execution_update_fault scout_users_fault disable_fault scout_check_fault
     scouts_select_fault getUserById shouldRunScout executeScoutAgent).

Local Abbreviation failure e w :=
  (Return {| body := ErrorBody (message_of e); status_code := 500 |}, w).

Hypothesis configured :
  truthy_str SUPABASE_URL = true /\ truthy_str SUPABASE_SERVICE_ROLE_KEY = true.

(** The handler on a request that is not a preflight: the scouts are
    selected, executed and reported, and a throw becomes a response. *)
Lemma handler_unfold req w :
  method req ≠ lit "OPTIONS" ->
  handler req w
  = try_catch (bind (selection req) (execute_and_report executeScoutAgent))
      (fun error => ret {| body := ErrorBody (message_of error); status_code := 500 |}) w.
Proof.
  intros Hm. unfold serve. rewrite bool_decide_eq_false_2 by done.
  unfold try_catch. f_equal.
  unfold serve_try. destruct configured as [-> ->]. simpl.
  unfold before_execution, before_selection.
  rewrite !bind_assoc. unfold bind.
  destruct (cleanup_stuck_executions _ _ _ w) as [[[]|e] w1]; [|done].
  by destruct (disable_inactive_users _ _ _ _ w1) as [[[]|e] w2].
Qed.

Lemma handler_selection_throws req w e w2 :
  method req ≠ lit "OPTIONS" ->
  selection req w = (Throw e, w2) ->
  handler req w = failure e w2.
Proof.
  intros Hm Hsel. rewrite handler_unfold by done.
  unfold try_catch, bind. by rewrite Hsel.
Qed.

Lemma selection_manual req scoutId w w2 :
  scoutId_param req = Some scoutId -> scoutId ≠ [] ->
  prelude w = (Return tt, w2) ->
  selection req w = manual_trigger scout_check_fault scoutId w2.
Proof.
  intros Hp Hne Hpre. unfold before_execution, bind.
  rewrite Hpre. unfold select_scouts_to_run. rewrite Hp.
  by destruct scoutId.
Qed.

(** C3: on a request that names a scout, once the two passes before the
    selection have returned, leaving the world [w2]: if the table has no
    scout of that id the handler answers 500 with the message
    [Scout <id> not found in database]; if the scout is there and not
    active, 500 with the message that it is not active; if it is active
    and not complete, 500 with the message that its configuration is not
    complete; otherwise the scouts to run are that scout alone, whatever
    [shouldRunScout] says of it. *)
Theorem manual_trigger_selection :
  forall (req : Request) (scoutId : jsstring) (w : Cron.World),
    method req ≠ lit "OPTIONS" ->
    scoutId_param req = Some scoutId ->
    scoutId ≠ [] ->
    scout_check_fault = Healthy ->
    (prelude w).1 = Return tt ->
    let w2 := (prelude w).2 in
    (scouts w2 !! scoutId = None ->
     handler req w
     = failure (JsError (lit "Scout " ++ scoutId ++ lit " not found in database")) w2)
    /\ (forall scout, scouts w2 !! scoutId = Some scout ->
        is_active scout = false ->
        handler req w
        = failure (JsError (lit "Scout " ++ scoutId
                              ++ lit " is not active. Please activate it in the settings.")) w2)
    /\ (forall scout, scouts w2 !! scoutId = Some scout ->
        is_active scout = true ->
        isComplete scout = false ->
        handler req w
        = failure (JsError (lit "Scout " ++ scoutId
                              ++ lit " configuration is not complete")) w2)
    /\ (forall scout, scouts w2 !! scoutId = Some scout ->
        is_active scout = true ->
        isComplete scout = true ->
        selection req w = (Return [scout], w2)).
Proof.
  intros req scoutId w Hm Hp Hne Hf Hpre w2.
  assert (Hsel : selection req w = manual_trigger scout_check_fault scoutId w2).
  { apply selection_manual; [done..|]. subst w2.
    destruct (prelude w) as [c w']; simpl in *. by subst c. }
  assert (Hman : forall w', manual_trigger scout_check_fault scoutId w'
                 = manual_trigger Healthy scoutId w') by (by rewrite Hf).
  rewrite Hman in Hsel. unfold manual_trigger, bind, select_scout_single in Hsel.
  repeat split.
  - intros Hnone. apply handler_selection_throws; [done|].
    rewrite Hsel. by rewrite Hnone.
  - intros scout Hs Ha. apply handler_selection_throws; [done|].
    rewrite Hsel, Hs. simpl. by rewrite Ha.
  - intros scout Hs Ha Hc. apply handler_selection_throws; [done|].
    rewrite Hsel, Hs. simpl. by rewrite Ha, Hc.
  - intros scout Hs Ha Hc. rewrite Hsel, Hs. simpl. by rewrite Ha, Hc.
Qed.

(** C1, as the code has it: once the scouts to run are selected, if every
    execution is fulfilled the handler answers 200 with [success: true],
    the number of scouts and the id and title of each, and no status per
    scout; and if the execution of the scout at index [k] is rejected while
    all the others are fulfilled, the handler answers 500 with the message
    of that rejection alone. *)
Theorem execution_report :
  forall (req : Request) (w w2 : Cron.World) (scoutsToRun : list Scout),
    method req ≠ lit "OPTIONS" ->
    selection req w = (Return scoutsToRun, w2) ->
    ((forall s, In s scoutsToRun -> outcome (executeScoutAgent s) = Fulfilled) ->
     handler req w
     = (Return {| body := ReportBody true (length scoutsToRun)
                            (map summary scoutsToRun);
                  status_code := 200 |}, w2))
    /\ (forall k sk e,
          scoutsToRun !! k = Some sk ->
          outcome (executeScoutAgent sk) = Rejected e ->
          (forall j sj, j ≠ k -> scoutsToRun !! j = Some sj ->
                        outcome (executeScoutAgent sj) = Fulfilled) ->
          handler req w
          = (Return {| body := ErrorBody (message_of e); status_code := 500 |}, w2)).
Proof.
  intros req w w2 run Hm Hsel. split.
  - intros Hall. rewrite handler_unfold by done.
    unfold try_catch, bind at 1. rewrite Hsel.
    unfold execute_and_report, bind, Promise_all.
    rewrite first_rejection_none; [done|].
    intros p (s & <- & Hs)%in_map_iff. by apply Hall.
  - intros k sk e Hk He Hrest. rewrite handler_unfold by done.
    unfold try_catch, bind at 1. rewrite Hsel.
    unfold execute_and_report, bind, Promise_all.
    rewrite (first_rejection_single _ k (executeScoutAgent sk) e); [done| |done|].
    + change (map executeScoutAgent run) with (executeScoutAgent <$> run).
      by rewrite list_lookup_fmap, Hk.
    + intros j q Hj Hq.
      change (map executeScoutAgent run) with (executeScoutAgent <$> run) in Hq.
      rewrite list_lookup_fmap in Hq.
      destruct (run !! j) as [sj|] eqn:Hsj; [|done].
      injection Hq as <-. by apply (Hrest j).
Qed.

End Handler.

(** *** The test endpoint *)

Lemma pattern_test_nonempty url : SLACK_WEBHOOK_PATTERN_test url = true -> url ≠ [].
Proof. by intros H ->. Qed.

Lemma ceil_div_positive x : 0 < x -> 1 <= Route.ceil_div x 1000.
Proof.
  intros Hx. unfold Route.ceil_div.
  assert (- x / 1000 < 0) by (apply Z.div_lt_upper_bound; lia). lia.
Qed.

Section TestSlack.

Variable clock : nat -> Z.
Variable toLocaleString : Z -> jsstring.
Variable fetch : jsstring -> SlackPayload -> completion FetchResponse.
Variable createServerSupabaseClient : completion unit.
Variable getUser : completion Route.AuthResult.
Variable request_json : completion Route.RequestBody.
Variable select_fault : fault.
Variable update_fault : fault.
Variable insert_fault : fault.

Let POST : M Slack.World Route.Response :=
  Route.POST clock toLocaleString fetch createServerSupabaseClient getUser
    request_json select_fault update_fault insert_fault.

Ltac route_unfold :=
  cbv [POST Route.POST Route.POST_try try_catch bind lift ret throw
       Route.select_preferences_maybeSingle Route.rate_limit Route.update_last_test
       Route.insert_preferences Slack.post Slack.Date_now Route.json_error
       Route.set_user_preferences].

Ltac route_reduce :=
  cbv beta iota zeta;
  cbn [mbind option_bind from_option Datatypes.id truthy_obj truthy_str negb
       Route.auth_user Route.authError fst snd outbox user_preferences Slack.ticks].

Ltac route_step :=
  match goal with
  | |- context [match ?x with _ => _ end] =>
      lazymatch x with
      | context [match _ with _ => _ end] => fail
      | _ => destruct x eqn:?; simpl in *
      end
  end.

(** The preferences change only on the path where the webhook was called
    and answered with success. *)
Lemma POST_changes_after_success (w : Slack.World) :
  user_preferences (POST w).2 = user_preferences w
  \/ exists url payload r,
       outbox (POST w).2 = outbox w ++ [(url, payload)]
       /\ fetch url payload = Return r /\ ok r = true.
Proof.
  route_unfold. simpl.
  repeat (first [ by left | route_step ]);
    right; eexists _, _, _; (split; [reflexivity|]); split; try eassumption;
    by apply negb_false_iff.
Qed.

(** C10, as the code has it. Whatever the request, the stored
    [last_test_slack_at] changes only after the webhook has been called and
    has answered with success. For the request of an authenticated user
    whose stored [last_test_slack_at] is less than 60 seconds before the
    clock, when the preferences query answers: no message is sent and the
    preferences are left as they were; and when moreover the client is
    created, the body is an object and the webhook URL taken from the body,
    or else from the preferences, matches the pattern, the response is 429
    with a [cooldownRemaining] of at least 1. *)
Theorem test_slack_cooldown :
  (forall w : Slack.World,
     user_preferences (POST w).2 ≠ user_preferences w ->
     exists url payload r,
       outbox (POST w).2 = outbox w ++ [(url, payload)]
       /\ fetch url payload = Return r /\ ok r = true)
  /\ (forall (w : Slack.World) (uid : jsstring) (p : Preferences) (lastSentAt : Z),
        getUser = Return {| Route.auth_user := Some uid; Route.authError := None |} ->
        select_fault = Healthy ->
        user_preferences w !! uid = Some p ->
        last_test_slack_at p = Some lastSentAt ->
        clock (Slack.ticks w) - lastSentAt < 60 * 1000 ->
        (outbox (POST w).2 = outbox w
         /\ user_preferences (POST w).2 = user_preferences w)
        /\ (forall provided url,
              createServerSupabaseClient = Return tt ->
              request_json = Return (Route.ObjectBody provided) ->
              or_str provided (slack_webhook_url p) = Some url ->
              SLACK_WEBHOOK_PATTERN_test url = true ->
              exists msg remaining,
                (POST w).1
                = Return {| Route.body := Route.ErrorBody msg (Some remaining);
                            Route.status_code := 429 |}
                /\ 1 <= remaining)).
Proof.
  split.
  { intros w Hne. by destruct (POST_changes_after_success w). }
  intros w uid p last Hauth Hsel Hp Hlast Hcool.
  assert (Hlt : (clock (Slack.ticks w) - last <? Route.TEST_SLACK_COOLDOWN_MS) = true).
  { apply Z.ltb_lt. unfold Route.TEST_SLACK_COOLDOWN_MS, Route.TEST_SLACK_COOLDOWN_SECONDS. lia. }
  split.
  - route_unfold. rewrite Hauth, Hsel. route_reduce.
    destruct createServerSupabaseClient as [[]|e]; [|done].
    destruct request_json as [[|provided]|e]; [done| |done].
    rewrite Hp. route_reduce. rewrite Hlast.
    destruct (negb (truthy_str (or_str provided (slack_webhook_url p)))); [done|].
    destruct (negb (SLACK_WEBHOOK_PATTERN_test _)); [done|].
    route_reduce. by rewrite Hlt.
  - intros provided url Hclient Hbody Hurl Htest.
    route_unfold. rewrite Hauth, Hsel, Hclient, Hbody. route_reduce.
    rewrite Hp. route_reduce. rewrite Hurl, Hlast.
    destruct url as [|c url]; [by apply pattern_test_nonempty in Htest|].
    route_reduce. rewrite Htest. route_reduce. rewrite Hlt. route_reduce.
    eexists _, _. split; [reflexivity|].
    pose proof (ceil_div_positive
                  (Route.TEST_SLACK_COOLDOWN_MS - (clock (Slack.ticks w) - last))) as Hc.
    unfold Route.TEST_SLACK_COOLDOWN_MS, Route.TEST_SLACK_COOLDOWN_SECONDS in *. lia.
Qed.

End TestSlack.

(** *** The properties on the sample data *)

Import Samples.

(** C2 on the sample world: the execution [e1], running for ten minutes,
    ends as failed. *)
Lemma cleanup_marks_stuck_failed_witness :
  (status <$> scout_executions
     (cleanup_stuck_executions noon Healthy (fun _ => Healthy) world).2 !! lit "e1")
  = Some (lit "failed").
Proof.
  destruct (cleanup_marks_stuck_failed noon Healthy (fun _ => Healthy) world
              (lit "e1") (running_since "s1" (now0 - minutes 10)))
    as [Hstuck _]; [reflexivity|reflexivity|vm_compute; reflexivity|].
  destruct Hstuck as (k & _ & Hk); [reflexivity|vm_compute; reflexivity|].
  simpl in Hk. rewrite Hk. reflexivity.
Defined.

(** C4 on the sample world: the scout [s1], whose owner signed in forty
    days ago, is deactivated. *)
Lemma sweep_deactivates_dormant_witness :
  (is_active <$> scouts
     (disable_inactive_users noon Healthy Healthy directory world).2 !! lit "s1")
  = Some false.
Proof.
  destruct (sweep_deactivates_dormant noon Healthy Healthy directory world
              (lit "s1") (scout_of "s1" "u1" true) (now0 - days 40))
    as [Hold _]; [reflexivity|reflexivity|vm_compute; reflexivity|reflexivity|].
  destruct Hold as [_ H]; [vm_compute; reflexivity|reflexivity|].
  exact H.
Defined.

(** C5 on the sample world: the scout [s3], whose owner is unknown to the
    authentication service, keeps its row. *)
Lemma sweep_skips_failed_lookup_witness :
  scouts (disable_inactive_users noon Healthy Healthy directory world).2 !! lit "s3"
  = Some (scout_of "s3" "ghost" true).
Proof.
  apply (sweep_skips_failed_lookup noon Healthy Healthy directory world (lit "s3")).
  - vm_compute; reflexivity.
  - left. eexists _, _. split; reflexivity.
Defined.

(** C5 as it is stated fails: the lookup of the owner of [s3] answers
    [User not found], and after the pass [s3], which was active, has not been
    deactivated. *)
Lemma unknown_user_not_deactivated :
  directory (user_id (scout_of "s3" "ghost" true))
  = Return {| user := None; user_error := Some (lit "User not found") |}
  /\ scouts world !! lit "s3" = Some (scout_of "s3" "ghost" true)
  /\ ~ (exists s', scouts (disable_inactive_users noon Healthy Healthy
                             directory world).2 !! lit "s3" = Some s'
                   /\ is_active s' = false).
Proof.
  split; [reflexivity|]. split; [vm_compute; reflexivity|].
  intros (s' & Hs' & Hoff). vm_compute in Hs'. injection Hs' as <-. discriminate.
Qed.

(** C3 on the sample world: the scout [s2], active and complete, is
    selected alone by a manual trigger, with a [shouldRunScout] that
    refuses every scout. *)
Lemma manual_trigger_selection_witness :
  (before_execution noon Healthy (fun _ => Healthy) Healthy Healthy Healthy Healthy
     directory (fun _ => false) (manual_request "s2") world).1
  = Return [scout_of "s2" "u2" true].
Proof.
  destruct (manual_trigger_selection noon sample_url sample_key Healthy
              (fun _ => Healthy) Healthy Healthy Healthy Healthy directory
              (fun _ => false) agent (conj eq_refl eq_refl)
              (manual_request "s2") (lit "s2") world)
    as (_ & _ & _ & Hrun);
    [discriminate|reflexivity|discriminate|reflexivity|vm_compute; reflexivity|].
  rewrite (Hrun (scout_of "s2" "u2" true));
    [reflexivity|vm_compute; reflexivity|reflexivity|reflexivity].
Defined.

(** C1 as amended, on the sample world: the agent fails on [s3] alone, and
    the handler answers 500 with the message of that failure. *)
Lemma execution_report_witness :
  (serve noon sample_url sample_key Healthy (fun _ => Healthy) Healthy Healthy
     Healthy Healthy directory (fun _ => true) agent cron_request world).1
  = Return {| body := ErrorBody (Some (lit "Firecrawl request failed"));
              status_code := 500 |}.
Proof.
  destruct (execution_report noon sample_url sample_key Healthy
              (fun _ => Healthy) Healthy Healthy Healthy Healthy directory
              (fun _ => true) agent (conj eq_refl eq_refl) cron_request world
              (before_execution noon Healthy (fun _ => Healthy) Healthy Healthy
                 Healthy Healthy directory (fun _ => true) cron_request world).2
              [scout_of "s3" "ghost" true; scout_of "s2" "u2" true])
    as [_ Hone]; [discriminate|vm_compute; reflexivity|].
  rewrite (Hone 0%nat (scout_of "s3" "ghost" true)
             (JsError (lit "Firecrawl request failed")));
    [reflexivity|reflexivity|reflexivity|].
  intros [|[|j]] sj Hj Hsj; [done| |done].
  injection Hsj as <-. reflexivity.
Defined.

(** C1 as it is stated fails: two scouts are selected, the execution of
    the first is rejected and that of the second is fulfilled, and the
    response of the handler is a 500 that lists no scout at all, not a
    report on the two. *)
Lemma rejected_execution_drops_report :
  let run := [scout_of "s3" "ghost" true; scout_of "s2" "u2" true] in
  (before_execution noon Healthy (fun _ => Healthy) Healthy Healthy Healthy Healthy
     directory (fun _ => true) cron_request world).1 = Return run
  /\ map (fun s => outcome (agent s)) run
     = [Rejected (JsError (lit "Firecrawl request failed")); Fulfilled]
  /\ exists r,
       (serve noon sample_url sample_key Healthy (fun _ => Healthy) Healthy Healthy
          Healthy Healthy directory (fun _ => true) agent cron_request world).1
       = Return r
       /\ status_code r = 500
       /\ ~ lists_every_scout r run.
Proof.
  split; [vm_compute; reflexivity|]. split; [reflexivity|].
  eexists. split; [vm_compute; reflexivity|]. split; [reflexivity|].
  intros (success & n & entries & Hbody & _). discriminate.
Qed.

(** C10 as amended, on the sample world: the user [u1], with a well-formed
    webhook and a test sent thirty seconds ago, is answered 429. *)
Lemma test_slack_cooldown_witness :
  exists msg remaining,
    (Route.POST noon no_locale slack_ok (Return tt) (signed_in "u1")
       (Return (Route.ObjectBody None)) Healthy Healthy Healthy slack_world).1
    = Return {| Route.body := Route.ErrorBody msg (Some remaining);
                Route.status_code := 429 |}
    /\ 1 <= remaining.
Proof.
  destruct (test_slack_cooldown noon no_locale slack_ok (Return tt) (signed_in "u1")
              (Return (Route.ObjectBody None)) Healthy Healthy Healthy)
    as [_ Hcool].
  destruct (Hcool slack_world (lit "u1")
              {| slack_webhook_url := Some webhook;
                 last_test_slack_at := Some (now0 - 30000) |}
              (now0 - 30000))
    as [_ Hrefused];
    [reflexivity|reflexivity|vm_compute; reflexivity|reflexivity|reflexivity|].
  apply (Hrefused None webhook); [reflexivity|reflexivity|reflexivity|].
  vm_compute; reflexivity.
Defined.

(** C10 as it is stated fails: the user [u2] is authenticated and sent a
    test thirty seconds ago, but has no webhook, in the body or in the
    preferences: the response is 400, not 429. *)
Lemma cooldown_request_without_webhook_gets_400 :
  user_preferences slack_world !! lit "u2"
  = Some {| slack_webhook_url := None; last_test_slack_at := Some (now0 - 30000) |}
  /\ noon (Slack.ticks slack_world) - (now0 - 30000) < 60 * 1000
  /\ exists r,
       (Route.POST noon no_locale slack_ok (Return tt) (signed_in "u2")
          (Return (Route.ObjectBody None)) Healthy Healthy Healthy slack_world).1
       = Return r
       /\ Route.status_code r = 400
       /\ Route.status_code r ≠ 429.
Proof.
  split; [vm_compute; reflexivity|]. split; [reflexivity|].
  eexists. split; [vm_compute; reflexivity|]. split; [reflexivity|discriminate].
Qed.

(** ** Further properties of the notifier ([slack.ts]) *)

Section Replacing.

(** Replacing every occurrence of one code unit is a substitution, unit by
    unit. *)
Lemma replace_char_flat_map (c : N) (by_ s : jsstring) :
  replace_char c by_ s
  = flat_map (fun x => if N.eqb x c then by_ else [x]) s.
Proof.
  unfold replace_char, replace_all.
  induction s as [|x s IH]; [done|].
  cbn [replace_all_from flat_map]. destruct (N.eqb x c); simpl; by rewrite IH.
Qed.

Lemma in_replace_char (c : N) (by_ s : jsstring) (y : N) :
  In y (replace_char c by_ s)
  <-> exists x, In x s /\ (if N.eqb x c then In y by_ else y = x).
Proof.
  rewrite replace_char_flat_map, in_flat_map. split.
  - intros (x & Hx & Hy). exists x. split; [done|].
    destruct (N.eqb x c); [done|]. simpl in Hy. destruct Hy as [<-|[]]. done.
  - intros (x & Hx & Hy). exists x. split; [done|].
    destruct (N.eqb x c); [done|]. simpl. by left.
Qed.

Lemma replace_char_absent (c : N) (by_ s : jsstring) :
  ~ In c s -> replace_char c by_ s = s.
Proof.
  rewrite replace_char_flat_map. induction s as [|x s IH]; [done|].
  intros Hnot. simpl in *. destruct (N.eqb_spec x c) as [->|_]; [tauto|].
  simpl. rewrite IH; [done|tauto].
Qed.

(** A pattern that matches nowhere leaves the text as it is. *)
Lemma replace_all_nowhere (try_match : jsstring -> option (jsstring * nat)) (s : jsstring) :
  (forall c r, In c s -> try_match (c :: r) = None) ->
  replace_all try_match s = s.
Proof.
  unfold replace_all. induction s as [|c s IH]; intros Hno; [done|].
  cbn [replace_all_from]. rewrite Hno by (simpl; tauto).
  rewrite IH; [done|]. intros c' r Hc'. apply Hno. simpl. tauto.
Qed.

(** Past a match of [k] more units, the text is skipped. *)
Lemma replace_all_from_skip (try_match : jsstring -> option (jsstring * nat))
      (k : nat) (s r : jsstring) :
  length s = k ->
  replace_all_from try_match k (s ++ r) = replace_all_from try_match 0 r.
Proof.
  revert k. induction s as [|c s IH]; intros k Hk; simpl in *.
  - by subst k.
  - destruct k as [|k]; [done|]. apply IH. lia.
Qed.

Lemma strip_prefix_app (p r : jsstring) : strip_prefix p (p ++ r) = Some r.
Proof. induction p as [|a p IH]; [done|]. simpl. by rewrite N.eqb_refl. Qed.

Lemma strip_prefix_Some (p s r : jsstring) : strip_prefix p s = Some r -> s = p ++ r.
Proof.
  revert s. induction p as [|a p IH]; intros s H; simpl in *.
  - by destruct s; injection H as ->.
  - destruct s as [|b s]; [done|]. destruct (N.eqb_spec a b) as [->|]; [|done].
    by rewrite (IH s H).
Qed.

Lemma span_app (f : N -> bool) (s : jsstring) :
  forall a r, span f s = (a, r) ->
    s = a ++ r /\ Forall (fun c => f c = true) a
    /\ match r with [] => True | c :: _ => f c = false end.
Proof.
  induction s as [|c s IH]; intros a r H; simpl in H.
  - by injection H as <- <-.
  - destruct (f c) eqn:Hc.
    + destruct (span f s) as [a' r'] eqn:Hs. injection H as <- <-.
      destruct (IH a' r' eq_refl) as (-> & Ha & Hr). by repeat split; [constructor|].
    + injection H as <- <-. by repeat split.
Qed.

Lemma span_run (f : N -> bool) (a r : jsstring) :
  Forall (fun c => f c = true) a ->
  match r with [] => True | c :: _ => f c = false end ->
  span f (a ++ r) = (a, r).
Proof.
  intros Ha Hr. induction Ha as [|c a Hc _ IH]; simpl.
  - destruct r as [|c r]; [done|]. simpl. by rewrite Hr.
  - by rewrite Hc, IH.
Qed.

Lemma match_heading_other c r : c ≠ 35%N -> match_heading (c :: r) = None.
Proof.
  intros Hc. unfold match_heading. change (lit "## ") with (35%N :: lit "# ").
  cbn [strip_prefix]. by destruct (N.eqb_spec 35 c).
Qed.

Lemma match_bold_other c r : c ≠ 42%N -> match_bold (c :: r) = None.
Proof.
  intros Hc. unfold match_bold. change (lit "**") with (42%N :: lit "*").
  cbn [strip_prefix]. by destruct (N.eqb_spec 42 c).
Qed.

Lemma match_link_other c r : c ≠ 91%N -> match_link (c :: r) = None.
Proof.
  intros Hc. unfold match_link. change (lit "[") with [91%N].
  cbn [strip_prefix]. by destruct (N.eqb_spec 91 c).
Qed.

End Replacing.

(** X1: the text that [escapeSlackText] returns holds no [<] and no [>],
    whatever the text given. *)
Theorem escapeSlackText_no_angle_bracket :
  forall text : jsstring,
    ~ In 60%N (escapeSlackText text) /\ ~ In 62%N (escapeSlackText text).
Proof.
  intros text. unfold escapeSlackText. split.
  - intros (x & Hx & Hy)%in_replace_char. revert Hy.
    destruct (N.eqb_spec x 62) as [->|Hne]; intros Hy.
    + vm_compute in Hy. intuition discriminate.
    + subst x. apply in_replace_char in Hx as (x & _ & Hy). revert Hy.
      destruct (N.eqb_spec x 60) as [->|Hne']; intros Hy; [|congruence].
      vm_compute in Hy. intuition discriminate.
  - intros (x & Hx & Hy)%in_replace_char. revert Hy.
    destruct (N.eqb_spec x 62) as [->|Hne]; intros Hy; [|congruence].
    vm_compute in Hy. intuition discriminate.
Qed.

(** X2: a text without [&], [<] and [>] is returned by [escapeSlackText]
    as it is. *)
Theorem escapeSlackText_plain_text :
  forall text : jsstring,
    ~ In 38%N text -> ~ In 60%N text -> ~ In 62%N text ->
    escapeSlackText text = text.
Proof.
  intros text Hamp Hlt Hgt. unfold escapeSlackText.
  rewrite (replace_char_absent 38) by done.
  rewrite (replace_char_absent 60) by done.
  by rewrite (replace_char_absent 62).
Qed.

Lemma escapeSlackText_plain_text_witness :
  escapeSlackText (lit "Ramen openings") = lit "Ramen openings".
Proof. apply escapeSlackText_plain_text; vm_compute; intuition discriminate. Defined.

(** X3: the URLs that [SLACK_WEBHOOK_PATTERN] accepts are exactly
    [https://hooks.slack.com/services/T] followed by one or more capitals or
    digits, [/B], one or more capitals or digits, [/], and one or more
    letters or digits up to the end. *)
Theorem webhook_pattern_language :
  forall url : jsstring,
    SLACK_WEBHOOK_PATTERN_test url = true
    <-> exists team bot token,
          team ≠ [] /\ bot ≠ [] /\ token ≠ []
          /\ Forall (fun c => is_upper c || is_digit c = true) team
          /\ Forall (fun c => is_upper c || is_digit c = true) bot
          /\ Forall (fun c => is_upper c || is_lower c || is_digit c = true) token
          /\ url = lit "https://hooks.slack.com/services/T" ++ team
                     ++ lit "/B" ++ bot ++ lit "/" ++ token.
Proof.
  intros url. unfold SLACK_WEBHOOK_PATTERN_test. split.
  - destruct (strip_prefix _ url) as [r1|] eqn:H1; [|done].
    apply strip_prefix_Some in H1 as ->.
    destruct (span _ r1) as [team r2] eqn:H2.
    apply span_app in H2 as (-> & Hteam & _).
    destruct team as [|t0 team]; [done|].
    destruct (strip_prefix _ r2) as [r3|] eqn:H3; [|done].
    apply strip_prefix_Some in H3 as ->.
    destruct (span _ r3) as [bot r4] eqn:H4.
    apply span_app in H4 as (-> & Hbot & _).
    destruct bot as [|b0 bot]; [done|].
    destruct (strip_prefix _ r4) as [r5|] eqn:H5; [|done].
    apply strip_prefix_Some in H5 as ->.
    destruct (span _ r5) as [token r6] eqn:H6.
    apply span_app in H6 as (-> & Htoken & _).
    destruct token as [|k0 token]; [done|]. destruct r6; [|done].
    intros _. exists (t0 :: team), (b0 :: bot), (k0 :: token).
    rewrite app_nil_r. by repeat split.
  - intros (team & bot & token & Ht & Hb & Hk & Hteam & Hbot & Htoken & ->).
    rewrite strip_prefix_app.
    change (lit "/B" ++ bot ++ lit "/" ++ token)
      with (47%N :: 66%N :: bot ++ lit "/" ++ token).
    rewrite span_run by done. destruct team; [done|].
    change (47%N :: 66%N :: bot ++ lit "/" ++ token)
      with (lit "/B" ++ bot ++ lit "/" ++ token).
    rewrite strip_prefix_app.
    change (lit "/" ++ token) with (47%N :: token).
    rewrite span_run by done. destruct bot; [done|].
    change (47%N :: token) with (lit "/" ++ token).
    rewrite strip_prefix_app.
    rewrite <- (app_nil_r token) at 1. rewrite span_run by done.
    by destruct token.
Qed.

Section Notifier.

Variable clock : nat -> Z.
Variable toLocaleString : Z -> jsstring.
Variable fetch : jsstring -> SlackPayload -> completion FetchResponse.
Variable prefs_fault : fault.

Local Abbreviation notify :=
  (sendSlackNotification clock toLocaleString fetch prefs_fault).

Ltac notify_unfold :=
  cbv [sendSlackNotification try_catch bind lift ret throw
       select_preferences_single formatSlackMessage required
       Slack.post Slack.Date_now].

Ltac notify_reduce :=
  cbv beta iota zeta;
  cbn [data error truthy_obj truthy_str negb orb andb from_option Datatypes.id
       fst snd outbox user_preferences Slack.ticks].

(** X4: [sendSlackNotification] never writes to the preferences, and it
    sends at most one message, to the webhook URL stored for the owner of
    the scout, and only when that URL matches the pattern. *)
Theorem sendSlackNotification_effects :
  forall (scout : Scout) (scoutResponse : ScoutResponse) (w : Slack.World),
    let w' := (notify scout scoutResponse w).2 in
    user_preferences w' = user_preferences w
    /\ (outbox w' = outbox w
        \/ exists p url payload,
             user_preferences w !! user_id scout = Some p
             /\ slack_webhook_url p = Some url
             /\ SLACK_WEBHOOK_PATTERN_test url = true
             /\ outbox w' = outbox w ++ [(url, payload)]).
Proof.
  intros scout scoutResponse w. notify_unfold.
  destruct prefs_fault as [|msg|e]; notify_reduce; [|by split; [|left]..].
  destruct (user_preferences w !! user_id scout) as [p|] eqn:Hp;
    notify_reduce; [|by split; [|left]].
  destruct (slack_webhook_url p) as [[|c url]|] eqn:Hurl;
    notify_reduce; [by split; [|left]| |by split; [|left]].
  destruct (SLACK_WEBHOOK_PATTERN_test (c :: url)) eqn:Htest;
    notify_reduce; [|by split; [|left]].
  destruct (title scout); notify_reduce; [|by split; [|left]].
  destruct (goal scout); notify_reduce; [|by split; [|left]].
  match goal with
  | |- context [fetch ?u ?pl] =>
      assert (Hsent : exists p0 url0 payload,
                 Some p = Some p0 /\ slack_webhook_url p0 = Some url0
                 /\ SLACK_WEBHOOK_PATTERN_test url0 = true
                 /\ outbox w ++ [(u, pl)] = outbox w ++ [(url0, payload)])
        by (by exists p, (c :: url), pl);
      destruct (fetch u pl) as [resp|e]
  end; notify_reduce; [|by split; [|right]].
  destruct (ok resp); notify_reduce; [by split; [|right]|].
  destruct (body_text resp); notify_reduce; by split; [|right].
Qed.

(** X5: when the preferences query answers, the owner of the scout has a
    stored webhook URL that matches the pattern, and the scout has a title
    and a goal, [sendSlackNotification] sends one message to that URL,
    whose result section holds the cleaned response and whose fallback text
    names the escaped title. *)
Theorem sendSlackNotification_delivers :
  forall (scout : Scout) (scoutResponse : ScoutResponse) (w : Slack.World)
         (p : Preferences) (url t g : jsstring),
    prefs_fault = Healthy ->
    user_preferences w !! user_id scout = Some p ->
    slack_webhook_url p = Some url ->
    SLACK_WEBHOOK_PATTERN_test url = true ->
    title scout = Some t ->
    goal scout = Some g ->
    exists payload,
      outbox (notify scout scoutResponse w).2 = outbox w ++ [(url, payload)]
      /\ result_section_text payload = Some (cleanResponse scoutResponse)
      /\ text payload
         = lit "Scout Alert: " ++ escapeSlackText t ++ lit " found new results!".
Proof.
  intros scout scoutResponse w p url t g Hf Hp Hurl Htest Ht Hg.
  notify_unfold. rewrite Hf, Hp. notify_reduce. rewrite Hurl.
  destruct url as [|c url]; [done|]. notify_reduce.
  rewrite Htest, Ht, Hg. notify_reduce.
  match goal with
  | |- context [fetch ?u ?pl] => exists pl; destruct (fetch u pl) as [resp|e]
  end; notify_reduce; [|done].
  destruct (ok resp); notify_reduce; [done|].
  by destruct (body_text resp).
Qed.

Local Abbreviation test_send := (sendTestSlackNotification clock toLocaleString fetch).

(** X8: [sendTestSlackNotification] always returns a result. For a URL that
    does not match the pattern nothing is sent and the result is the
    failure with the format message; for a URL that matches, one message is
    sent to it, and the result is a success exactly when the webhook
    answered with an [ok] response. *)
Theorem sendTestSlackNotification_result :
  forall (webhookUrl : jsstring) (w : Slack.World),
  exists r w',
    test_send webhookUrl w = (Return r, w')
    /\ user_preferences w' = user_preferences w
    /\ (SLACK_WEBHOOK_PATTERN_test webhookUrl = false ->
        w' = w /\ r = {| success := false; test_error := Some INVALID_WEBHOOK |})
    /\ (SLACK_WEBHOOK_PATTERN_test webhookUrl = true ->
        let payload := test_notification toLocaleString (clock (Slack.ticks w)) in
        outbox w' = outbox w ++ [(webhookUrl, payload)]
        /\ (success r = true
            <-> exists response,
                  fetch webhookUrl payload = Return response /\ ok response = true)).
Proof.
  intros url w.
  cbv [sendTestSlackNotification try_catch bind lift ret throw Slack.post Slack.Date_now].
  destruct (SLACK_WEBHOOK_PATTERN_test url) eqn:Htest; notify_reduce.
  2: { eexists _, _. split; [reflexivity|]. by repeat split. }
  destruct (fetch url _) as [resp|e] eqn:Hfetch; notify_reduce.
  - destruct (ok resp) eqn:Hok; notify_reduce.
    + eexists _, _. split; [reflexivity|]. repeat split; try done.
      intros _. by exists resp.
    + destruct (body_text resp); notify_reduce;
        (eexists _, _; split; [reflexivity|]; repeat split; try done;
         intros (resp' & [= <-] & Hok'); congruence).
  - eexists _, _. split; [reflexivity|]. repeat split; try done.
    by intros (resp' & ? & _).
Qed.

End Notifier.

(** X6: a response that holds no [#], [*] or [[] and is at most 2000 code
    units long is the text of the result section, unchanged. *)
Theorem cleanResponse_plain_text :
  forall r : ScoutResponse,
    ~ In 35%N (response r) -> ~ In 42%N (response r) -> ~ In 91%N (response r) ->
    (length (response r) <= 2000)%nat ->
    cleanResponse r = response r.
Proof.
  intros r Hhash Hstar Hbracket Hlen.
  assert (Hmd : slack_markdown (response r) = response r).
  { unfold slack_markdown.
    rewrite (replace_all_nowhere match_heading)
      by (intros c s Hc; apply match_heading_other; congruence).
    rewrite (replace_all_nowhere match_bold)
      by (intros c s Hc; apply match_bold_other; congruence).
    rewrite (replace_all_nowhere match_link)
      by (intros c s Hc; apply match_link_other; congruence).
    done. }
  unfold cleanResponse. rewrite Hmd.
  destruct (Nat.ltb_spec MAX_TEXT_LENGTH (length (response r))); [|done].
  unfold MAX_TEXT_LENGTH in *. lia.
Qed.

Lemma cleanResponse_plain_text_witness :
  cleanResponse {| response := lit "Three new shops opened in Shibuya." |}
  = lit "Three new shops opened in Shibuya.".
Proof.
  apply (cleanResponse_plain_text {| response := lit "Three new shops opened in Shibuya." |});
    vm_compute; try intuition discriminate. lia.
Defined.

(** X7: the text of the result section is never longer than 2001 code
    units, and it always starts with the first 1985 code units of the
    response rewritten for Slack. *)
Theorem cleanResponse_bounded :
  forall r : ScoutResponse,
    (length (cleanResponse r) <= 2001)%nat
    /\ take 1985 (cleanResponse r) = take 1985 (slack_markdown (response r)).
Proof.
  intros r. split.
  - rewrite cleanResponse_length.
    destruct (Nat.ltb_spec MAX_TEXT_LENGTH (length (slack_markdown (response r))));
      unfold MAX_TEXT_LENGTH in *; lia.
  - unfold cleanResponse.
    destruct (Nat.ltb_spec MAX_TEXT_LENGTH (length (slack_markdown (response r))));
      [|done].
    unfold MAX_TEXT_LENGTH in *. rewrite take_app_le.
    + rewrite take_take. f_equal. 
    + rewrite length_take. lia.
Qed.

(** X9: a markdown link on its own, with a label and a target free of the
    characters the rewriting looks for, becomes the Slack link
    [<target|label>]. *)
Theorem slack_markdown_link :
  forall label target : jsstring,
    label ≠ [] -> target ≠ [] ->
    (forall c, In c label -> c ≠ 35%N /\ c ≠ 42%N /\ c ≠ 91%N /\ c ≠ 93%N) ->
    (forall c, In c target -> c ≠ 35%N /\ c ≠ 42%N /\ c ≠ 91%N /\ c ≠ 41%N) ->
    slack_markdown (lit "[" ++ label ++ lit "](" ++ target ++ lit ")")
    = lit "<" ++ target ++ lit "|" ++ label ++ lit ">".
Proof.
  intros label target Hl Ht Hlabel Htarget.
  set (s := lit "[" ++ label ++ lit "](" ++ target ++ lit ")").
  assert (Hin : forall c, In c s ->
                  c = 91%N \/ In c label \/ c = 93%N \/ c = 40%N \/ In c target \/ c = 41%N).
  { intros c. subst s. rewrite !in_app_iff. simpl. intuition auto. }
  unfold slack_markdown.
  rewrite (replace_all_nowhere match_heading).
  2: { intros c r [-> | [Hc | [-> | [-> | [Hc | ->]]]]]%Hin;
         apply match_heading_other; try done.
       - by destruct (Hlabel c Hc).
       - by destruct (Htarget c Hc). }
  rewrite (replace_all_nowhere match_bold).
  2: { intros c r [-> | [Hc | [-> | [-> | [Hc | ->]]]]]%Hin;
         apply match_bold_other; try done.
       - by destruct (Hlabel c Hc) as (_ & ? & _).
       - by destruct (Htarget c Hc) as (_ & ? & _). }
  subst s. unfold replace_all.
  change (lit "[" ++ label ++ lit "](" ++ target ++ lit ")")
    with (91%N :: (label ++ 93%N :: 40%N :: target ++ [41%N])).
  cbn [replace_all_from].
  assert (Hmatch :
    match_link (91%N :: (label ++ 93%N :: 40%N :: target ++ [41%N]))
    = Some (lit "<" ++ target ++ lit "|" ++ label ++ lit ">",
            (1 + length label + 2 + length target + 1)%nat)).
  { unfold match_link.
    change (strip_prefix (lit "[") (91%N :: ?r)) with (strip_prefix [] r).
    cbn [strip_prefix].
    rewrite span_run.
    2: { apply Forall_forall. intros c Hc%list_elem_of_In.
         destruct (Hlabel c Hc) as (_ & _ & _ & H93).
         by destruct (N.eqb_spec c 93). }
    2: done.
    destruct label as [|l0 label]; [done|].
    change (93%N :: 40%N :: target ++ [41%N]) with (lit "](" ++ target ++ [41%N]).
    rewrite strip_prefix_app.
    rewrite span_run.
    2: { apply Forall_forall. intros c Hc%list_elem_of_In.
         destruct (Htarget c Hc) as (_ & _ & _ & H41).
         by destruct (N.eqb_spec c 41). }
    2: done.
    destruct target as [|t0 target]; [done|]. done. }
  rewrite Hmatch.
  rewrite <- (app_nil_r (label ++ 93%N :: 40%N :: target ++ [41%N])).
  rewrite replace_all_from_skip.
  - simpl. by rewrite app_nil_r.
  - rewrite !length_app. simpl. rewrite length_app. simpl. lia.
Qed.

Lemma slack_markdown_link_witness :
  slack_markdown (lit "[menu](http://ramen.example/menu)")
  = lit "<http://ramen.example/menu|menu>".
Proof.
  apply (slack_markdown_link (lit "menu") (lit "http://ramen.example/menu"));
    [discriminate|discriminate| |];
    intros c Hc; vm_compute in Hc;
    repeat (destruct Hc as [<-|Hc]; [repeat split; discriminate|]); destruct Hc.
Defined.

Lemma sendSlackNotification_delivers_witness :
  exists payload,
    outbox (sendSlackNotification noon no_locale slack_ok Healthy
              (scout_of "s1" "u1" true) long_response slack_world).2
    = outbox slack_world ++ [(webhook, payload)]
    /\ result_section_text payload = Some (cleanResponse long_response)
    /\ text payload
       = lit "Scout Alert: " ++ escapeSlackText (lit "Ramen openings")
           ++ lit " found new results!".
Proof.
  apply (sendSlackNotification_delivers noon no_locale slack_ok Healthy
           (scout_of "s1" "u1" true) long_response slack_world
           {| slack_webhook_url := Some webhook;
              last_test_slack_at := Some (now0 - 30000) |}
           webhook (lit "Ramen openings") (lit "Find new ramen shops"));
    try reflexivity; vm_compute; reflexivity.
Defined.

(** ** Further properties of the handler ([index.ts]) *)

Lemma first_rejection_earliest (ps : list Promise) (t : nat) (e : thrown) :
  first_rejection ps = Some (t, e) ->
  (exists p, In p ps /\ outcome p = Rejected e /\ settled_at p = t)
  /\ (forall q e', In q ps -> outcome q = Rejected e' -> (t <= settled_at q)%nat).
Proof.
  revert t e. induction ps as [|p ps IH]; intros t e H; simpl in H; [done|].
  destruct (outcome p) as [|ep] eqn:Hp.
  - destruct (IH t e H) as ((p0 & Hin & Ho & Ht) & Hmin). split.
    + exists p0. simpl. tauto.
    + intros q e' [<-|Hq] Hq'; [congruence|]. by eapply Hmin.
  - destruct (first_rejection ps) as [[t' e'']|] eqn:Hrest.
    + destruct (IH t' e'' eq_refl) as ((p0 & Hin & Ho & Ht) & Hmin).
      destruct (Nat.ltb_spec t' (settled_at p)).
      * injection H as <- <-. split.
        -- exists p0. simpl. tauto.
        -- intros q e' [<-|Hq] Hq'; [lia|]. by eapply Hmin.
      * injection H as <- <-. split.
        -- exists p. simpl. tauto.
        -- intros q e' [<-|Hq] Hq'; [lia|]. specialize (Hmin q e' Hq Hq'). lia.
    + injection H as <- <-. split.
      * exists p. simpl. tauto.
      * intros q e' [<-|Hq] Hq'; [lia|]. exfalso.
        clear -Hrest Hq Hq'. induction ps as [|a ps IHps]; [done|].
        simpl in Hrest. destruct Hq as [->|Hq].
        -- rewrite Hq' in Hrest. by destruct (first_rejection ps) as [[? ?]|]; [destruct (_ <? _)%nat|].
        -- destruct (outcome a); [by apply IHps|].
           by destruct (first_rejection ps) as [[? ?]|]; [destruct (_ <? _)%nat|].
Qed.

Lemma first_rejection_some (ps : list Promise) (q : Promise) (e : thrown) :
  In q ps -> outcome q = Rejected e -> exists t e', first_rejection ps = Some (t, e').
Proof.
  intros Hq He. destruct (first_rejection ps) as [[t e']|] eqn:H; [eauto|].
  exfalso. induction ps as [|a ps IH]; [done|].
  simpl in H. destruct Hq as [->|Hq].
  - rewrite He in H. by destruct (first_rejection ps) as [[? ?]|]; [destruct (_ <? _)%nat|].
  - destruct (outcome a); [by apply IH|].
    by destruct (first_rejection ps) as [[? ?]|]; [destruct (_ <? _)%nat|].
Qed.

Section HandlerMore.

Variable clock : nat -> Z.
Variable SUPABASE_URL : option jsstring.
Variable SUPABASE_SERVICE_ROLE_KEY : option jsstring.
Variable stuck_select_fault : fault.
Variable execution_update_fault : jsstring -> fault.
Variable scout_users_fault : fault.
Variable disable_fault : fault.
Variable scout_check_fault : fault.
Variable scouts_select_fault : fault.
Variable getUserById : jsstring -> completion UserResponse.
Variable shouldRunScout : Scout -> bool.
Variable executeScoutAgent : Scout -> Promise.

Local Abbreviation cleanup :=
  (cleanup_stuck_executions clock stuck_select_fault execution_update_fault).

Local Abbreviation sweep :=
  (disable_inactive_users clock scout_users_fault disable_fault getUserById).

Local Abbreviation select :=
  (select_scouts_to_run scout_check_fault scouts_select_fault shouldRunScout).

Local Abbreviation prelude :=
  (before_selection clock stuck_select_fault execution_update_fault
     scout_users_fault disable_fault getUserById).

Local Abbreviation selection :=
  (before_execution clock stuck_select_fault execution_update_fault
     scout_users_fault disable_fault scout_check_fault scouts_select_fault
     getUserById shouldRunScout).

Local Abbreviation handler :=
  (serve clock SUPABASE_URL SUPABASE_SERVICE_ROLE_KEY stuck_select_fault
     execution_update_fault scout_users_fault disable_fault scout_check_fault
     scouts_select_fault getUserById shouldRunScout executeScoutAgent).

Local Abbreviation failure e w :=
  (Return {| body := ErrorBody (message_of e); status_code := 500 |}, w).






(** X11: when one of the two configuration variables is missing or empty,
    a request that is not a preflight is answered 500 with the message
    [Supabase configuration missing], and the world is left as it was,
    clock included. *)
Theorem serve_without_configuration :
  forall (req : Request) (w : Cron.World),
    method req ≠ lit "OPTIONS" ->
    truthy_str SUPABASE_URL = false \/ truthy_str SUPABASE_SERVICE_ROLE_KEY = false ->
    handler req w = failure (JsError (lit "Supabase configuration missing")) w.
Proof.
  intros req w Hm Hmissing. unfold serve. rewrite bool_decide_eq_false_2 by done.
  unfold try_catch, serve_try.
  by destruct Hmissing as [-> | ->]; [|rewrite orb_true_r].
Qed.

Local Abbreviation turn :=
  (fun execution : jsstring * Execution =>
     let* completed := Cron.Date_now clock in
     let* _ := update_failed execution_update_fault execution.1 completed in
     ret tt).








(** X14: after a pass over the stuck executions in which the store
    answered, no execution is left both running and started more than
    three minutes before the clock at the start of the pass. *)
Theorem cleanup_leaves_none_stuck :
  forall (w : Cron.World) (i : jsstring) (e' : Execution),
    stuck_select_fault = Healthy ->
    (forall j, execution_update_fault j = Healthy) ->
    scout_executions (cleanup w).2 !! i = Some e' ->
    status e' = lit "running" ->
    clock (Cron.ticks w) - 3 * 60 * 1000 <= started_at e'.
Proof.
  intros w i e' Hsel Hupd. rewrite (cleanup_healthy _ _ _ w Hsel).
  set (l := List.filter _ _). set (w1 := {| scout_executions := _ |}).
  destruct (decide (i ∈ map fst l)) as [Hin|Hout]; rewrite list_elem_of_In in *.
  - destruct (loop_hit clock execution_update_fault l w1 i Hupd Hin) as (k & _ & ->).
    destruct (scout_executions w1 !! i); [|done].
    intros [= <-]. cbn [status mark_failed]. by intros [=].
  - rewrite loop_other by done. change (scout_executions w1) with (scout_executions w).
    intros He' Hrun. apply Z.ltb_ge.
    destruct (started_at e' <? _) eqn:Hlt; [|done]. exfalso. apply Hout.
    subst l. apply in_stuck_rows. exists e'. split; [done|].
    unfold is_stuck. by rewrite bool_decide_eq_true_2, Hlt.
Qed.

End HandlerMore.

Section HandlerSelection.

Variable clock : nat -> Z.
Variable SUPABASE_URL : option jsstring.
Variable SUPABASE_SERVICE_ROLE_KEY : option jsstring.
Variable stuck_select_fault : fault.
Variable execution_update_fault : jsstring -> fault.
Variable scout_users_fault : fault.
Variable disable_fault : fault.
Variable scout_check_fault : fault.
Variable scouts_select_fault : fault.
Variable getUserById : jsstring -> completion UserResponse.
Variable shouldRunScout : Scout -> bool.
Variable executeScoutAgent : Scout -> Promise.

Local Abbreviation select :=
  (select_scouts_to_run scout_check_fault scouts_select_fault shouldRunScout).

Local Abbreviation prelude :=
  (before_selection clock stuck_select_fault execution_update_fault
     scout_users_fault disable_fault getUserById).

Local Abbreviation selection :=
  (before_execution clock stuck_select_fault execution_update_fault
     scout_users_fault disable_fault scout_check_fault scouts_select_fault
     getUserById shouldRunScout).

Local Abbreviation handler :=
  (serve clock SUPABASE_URL SUPABASE_SERVICE_ROLE_KEY stuck_select_fault
     execution_update_fault scout_users_fault disable_fault scout_check_fault
     scouts_select_fault getUserById shouldRunScout executeScoutAgent).

Local Abbreviation failure e w :=
  (Return {| body := ErrorBody (message_of e); status_code := 500 |}, w).

Hypothesis configured :
  truthy_str SUPABASE_URL = true /\ truthy_str SUPABASE_SERVICE_ROLE_KEY = true.

Lemma selection_after_prelude req w :
  (prelude w).1 = Return tt ->
  selection req w = select req (prelude w).2.
Proof.
  intros Hpre. unfold before_execution, bind.
  destruct (prelude w) as [c w2]. simpl in *. by subst c.
Qed.

(** X15: on a request without a scout id, or with an empty one, when the
    query on the scouts answers, the scouts to run are exactly the scouts
    of the table that are active and that [shouldRunScout] accepts, and the
    selection changes nothing. *)
Theorem cron_trigger_selects_due :
  forall (req : Request) (w : Cron.World),
    scoutId_param req = None \/ scoutId_param req = Some [] ->
    scouts_select_fault = Healthy ->
    exists scoutsToRun,
      select req w = (Return scoutsToRun, w)
      /\ forall s,
           In s scoutsToRun
           <-> (exists sid, scouts w !! sid = Some s)
               /\ is_active s = true /\ shouldRunScout s = true.
Proof.
  intros req w Hreq Hsel.
  exists (List.filter shouldRunScout
            (List.filter is_active (map snd (map_to_list (scouts w))))).
  split.
  - unfold select_scouts_to_run, cron_trigger, bind, select_active_scouts, query.
    rewrite Hsel. by destruct Hreq as [-> | ->].
  - intros s. rewrite !filter_In, in_map_iff. split.
    + intros [[([sid s'] & <- & Hin) Hact] Hdue].
      apply list_elem_of_In, elem_of_map_to_list in Hin. eauto.
    + intros ((sid & Hs) & Hact & Hdue). repeat split; [|done..].
      exists (sid, s). split; [done|]. by apply list_elem_of_In, elem_of_map_to_list.
Qed.

(** X16: on a request without a scout id, when the query on the scouts
    answers with an error, the handler answers 500 with the message of that
    error, and no scout is executed. *)
Theorem cron_trigger_store_error :
  forall (req : Request) (w : Cron.World) (msg : jsstring),
    method req ≠ lit "OPTIONS" ->
    scoutId_param req = None ->
    scouts_select_fault = Fails msg ->
    (prelude w).1 = Return tt ->
    handler req w
    = (Return {| body := ErrorBody (Some msg); status_code := 500 |}, (prelude w).2).
Proof.
  intros req w msg Hm Hreq Hsel Hpre.
  apply (handler_selection_throws _ _ _ _ _ _ _ _ _ _ _ _ configured req w
           (JsOther (lit "[object Object]") (Some msg))); [done|].
  rewrite selection_after_prelude by done.
  unfold select_scouts_to_run, cron_trigger, bind, select_active_scouts, query.
  by rewrite Hreq, Hsel.
Qed.

(** X17: on a request that names a scout, when the query on that scout
    answers with an error, the handler answers 500 with the message that
    the scout was not found, whether the scout is in the table or not. *)
Theorem manual_trigger_store_error :
  forall (req : Request) (scoutId : jsstring) (w : Cron.World) (msg : jsstring),
    method req ≠ lit "OPTIONS" ->
    scoutId_param req = Some scoutId ->
    scoutId ≠ [] ->
    scout_check_fault = Fails msg ->
    (prelude w).1 = Return tt ->
    handler req w
    = failure (JsError (lit "Scout " ++ scoutId ++ lit " not found in database"))
        (prelude w).2.
Proof.
  intros req scoutId w msg Hm Hreq Hne Hf Hpre.
  apply (handler_selection_throws _ _ _ _ _ _ _ _ _ _ _ _ configured req w); [done|].
  rewrite selection_after_prelude by done.
  unfold select_scouts_to_run. rewrite Hreq. destruct scoutId as [|c sid]; [done|].
  unfold manual_trigger, bind, select_scout_single. by rewrite Hf.
Qed.

(** X18: once the scouts to run are selected, the handler answers 200 only
    if every execution was fulfilled; and if some execution was rejected,
    it answers 500 with the message of a rejected execution that settled no
    later than any other rejected one. *)
Theorem execution_first_rejection :
  forall (req : Request) (w w2 : Cron.World) (scoutsToRun : list Scout),
    method req ≠ lit "OPTIONS" ->
    selection req w = (Return scoutsToRun, w2) ->
    (forall r, (handler req w).1 = Return r -> status_code r = 200 ->
               forall s, In s scoutsToRun -> outcome (executeScoutAgent s) = Fulfilled)
    /\ ((exists s e, In s scoutsToRun /\ outcome (executeScoutAgent s) = Rejected e) ->
        exists s e,
          In s scoutsToRun
          /\ outcome (executeScoutAgent s) = Rejected e
          /\ (forall s' e', In s' scoutsToRun ->
                outcome (executeScoutAgent s') = Rejected e' ->
                (settled_at (executeScoutAgent s) <= settled_at (executeScoutAgent s'))%nat)
          /\ handler req w = failure e w2).
Proof.
  intros req w w2 run Hm Hsel.
  assert (Hrej : (exists s e, In s run /\ outcome (executeScoutAgent s) = Rejected e) ->
    exists s e,
      In s run /\ outcome (executeScoutAgent s) = Rejected e
      /\ (forall s' e', In s' run -> outcome (executeScoutAgent s') = Rejected e' ->
            (settled_at (executeScoutAgent s) <= settled_at (executeScoutAgent s'))%nat)
      /\ handler req w = failure e w2).
  { intros (s & e & Hs & He).
    destruct (first_rejection_some (map executeScoutAgent run) (executeScoutAgent s) e)
      as (t & e0 & Hfirst); [by apply in_map|done|].
    destruct (first_rejection_earliest _ _ _ Hfirst)
      as ((p & (s0 & <- & Hs0)%in_map_iff & Ho & Ht) & Hmin).
    exists s0, e0. repeat split; [done..| |].
    - intros s' e' Hs' He'. rewrite Ht. eapply Hmin; [by apply in_map|done].
    - rewrite (handler_unfold _ _ _ _ _ _ _ _ _ _ _ _ configured) by done.
      unfold try_catch, bind at 1. rewrite Hsel.
      unfold execute_and_report, bind, Promise_all. by rewrite Hfirst. }
  split; [|done].
  intros r Hr H200 s Hs.
  destruct (outcome (executeScoutAgent s)) as [|e] eqn:He; [done|]. exfalso.
  destruct Hrej as (s0 & e0 & _ & _ & _ & Hfail); [eauto|].
  rewrite Hfail in Hr. injection Hr as <-. done.
Qed.

End HandlerSelection.

(** ** Further properties of the test endpoint ([route.ts]) *)

Section TestSlackMore.

Variable clock : nat -> Z.
Variable toLocaleString : Z -> jsstring.
Variable fetch : jsstring -> SlackPayload -> completion FetchResponse.
Variable createServerSupabaseClient : completion unit.
Variable getUser : completion Route.AuthResult.
Variable request_json : completion Route.RequestBody.
Variable select_fault : fault.
Variable update_fault : fault.
Variable insert_fault : fault.

Local Abbreviation POST :=
  (Route.POST clock toLocaleString fetch createServerSupabaseClient getUser
     request_json select_fault update_fault insert_fault).

Ltac post_unfold :=
  cbv [Route.POST Route.POST_try try_catch bind lift ret throw
       Route.select_preferences_maybeSingle Route.rate_limit Route.update_last_test
       Route.insert_preferences Slack.post Slack.Date_now Route.json_error
       Route.set_user_preferences].

Ltac post_reduce :=
  cbv beta iota zeta;
  cbn [mbind option_bind from_option Datatypes.id truthy_obj truthy_str negb
       Route.auth_user Route.authError Route.status_code Route.body
       fst snd outbox user_preferences Slack.ticks].

Ltac post_step :=
  match goal with
  | |- context [match ?x with _ => _ end] =>
      lazymatch x with
      | context [match _ with _ => _ end] => fail
      | _ => destruct x eqn:?; simpl in *
      end
  end.

(** X19: the endpoint always answers: whatever the session, the body, the
    store and the webhook do, it returns a response, of status 200, 400,
    401, 429 or 500. *)
Theorem POST_always_answers :
  forall w : Slack.World,
  exists r w',
    POST w = (Return r, w')
    /\ In (Route.status_code r) [200; 400; 401; 429; 500].
Proof.
  intros w. post_unfold. simpl.
  repeat post_step;
    (eexists _, _; split; [reflexivity|]; simpl; tauto).
Qed.

(** X20: the endpoint writes to no row of the preferences other than the
    row of the authenticated user: a row that differs after the request is
    the row of the user that the session names. *)
Theorem POST_touches_own_row :
  forall (w : Slack.World) (uid : jsstring),
    user_preferences (POST w).2 !! uid ≠ user_preferences w !! uid ->
    exists a, getUser = Return a
              /\ Route.authError a = None /\ Route.auth_user a = Some uid.
Proof.
  intros w uid.
  assert (H : user_preferences (POST w).2 !! uid = user_preferences w !! uid
              \/ exists a, getUser = Return a
                           /\ Route.authError a = None /\ Route.auth_user a = Some uid);
    [|by destruct H].
  post_unfold. simpl.
  repeat (first [ by left | post_step ]);
    match goal with
    | Hk : Route.auth_user ?a = Some ?j |- _ =>
        destruct (decide (j = uid)) as [->|Hne];
        [ right; exists a; destruct (Route.authError a); by repeat split
        | left; by rewrite ?lookup_alter_ne, ?lookup_insert_ne ]
    end.
Qed.

(** X21: the endpoint sends at most one message, and only to a URL that
    matches the Slack webhook pattern; a non-empty URL given in the body
    takes precedence over the stored one. *)
Theorem POST_sends_at_most_one :
  forall w : Slack.World,
    outbox (POST w).2 = outbox w
    \/ exists url payload provided,
         outbox (POST w).2 = outbox w ++ [(url, payload)]
         /\ SLACK_WEBHOOK_PATTERN_test url = true
         /\ request_json = Return (Route.ObjectBody provided)
         /\ (truthy_str provided = true -> provided = Some url).
Proof.
  intros w. post_unfold. simpl.
  repeat (first [ by left | post_step ]);
    right; eexists _, _, _; (split; [reflexivity|]);
    (split; [by apply negb_false_iff|]); (split; [reflexivity|]);
    match goal with
    | |- truthy_str ?o = true -> _ =>
        unfold or_str; intros Hp; rewrite Hp; simpl;
        by destruct o as [[|? ?]|]
    end.
Qed.

(** X22: a response other than 200 means that nothing was stored: the
    preferences are as they were. *)
Theorem POST_failure_stores_nothing :
  forall (w : Slack.World) (r : Route.Response),
    (POST w).1 = Return r ->
    Route.status_code r ≠ 200 ->
    user_preferences (POST w).2 = user_preferences w.
Proof.
  intros w r. post_unfold. simpl.
  repeat (first [ by intros | post_step ]); by intros [= <-].
Qed.

(** X23: the refusal of the rate limit. When the last test was sent
    [elapsed] milliseconds before the clock, with [0 <= elapsed < 60000],
    the request is refused with status 429 and the number of seconds that
    remain, rounded up: between 1 and 60, the same in the message and in
    [cooldownRemaining]. From 60000 milliseconds on, the request is not
    refused. *)
Theorem rate_limit_remaining :
  forall (w : Slack.World) (p : Preferences) (lastSentAt : Z),
    last_test_slack_at p = Some lastSentAt ->
    let elapsed := clock (Slack.ticks w) - lastSentAt in
    (0 <= elapsed < 60 * 1000 ->
     exists n,
       (Route.rate_limit clock (Some p) w).1
       = Return (Some {| Route.body :=
                           Route.ErrorBody
                             (lit "Please wait " ++ of_Z n
                                ++ lit " seconds before sending another test")
                             (Some n);
                         Route.status_code := 429 |})
       /\ 1 <= n <= 60
       /\ 1000 * (n - 1) < 60 * 1000 - elapsed <= 1000 * n)
    /\ (60 * 1000 <= elapsed ->
        (Route.rate_limit clock (Some p) w).1 = Return None).
Proof.
  intros w p last Hlast elapsed. subst elapsed.
  cbv [Route.rate_limit bind ret Slack.Date_now]. post_reduce. rewrite Hlast.
  unfold Route.TEST_SLACK_COOLDOWN_MS, Route.TEST_SLACK_COOLDOWN_SECONDS.
  split.
  - intros [Hlo Hhi].
    destruct (Z.ltb_spec (clock (Slack.ticks w) - last) (60 * 1000)); [|lia].
    post_reduce.
    set (x := 60 * 1000 - (clock (Slack.ticks w) - last)).
    assert (Hceil : 1000 * (Route.ceil_div x 1000 - 1) < x <= 1000 * Route.ceil_div x 1000).
    { unfold Route.ceil_div.
      pose proof (Z.div_mod (- x) 1000 ltac:(lia)) as Hdm.
      pose proof (Z.mod_pos_bound (- x) 1000 ltac:(lia)) as Hb. lia. }
    exists (Route.ceil_div x 1000).
    assert (Hrange : 1 <= Route.ceil_div x 1000 <= 60) by (subst x; lia).
    rewrite Z.max_r by lia. by repeat split; try lia.
  - intros Hold.
    destruct (Z.ltb_spec (clock (Slack.ticks w) - last) (60 * 1000)); [lia|done].
Qed.

(** X24: a test that goes through, for a user who has a row of
    preferences. When the session, the body, the store and the webhook all
    answer, the URL taken from the body or else from the row matches the
    pattern, and the last test, if any, is at least 60000 milliseconds
    old, the answer is 200, one message is sent to that URL, and the row
    gets a [last_test_slack_at] read from the clock, its webhook URL
    kept. *)
Theorem POST_success_updates :
  forall (w : Slack.World) (uid : jsstring) (p : Preferences)
         (provided : option jsstring) (url : jsstring),
    createServerSupabaseClient = Return tt ->
    getUser = Return {| Route.auth_user := Some uid; Route.authError := None |} ->
    request_json = Return (Route.ObjectBody provided) ->
    select_fault = Healthy ->
    update_fault = Healthy ->
    user_preferences w !! uid = Some p ->
    or_str provided (slack_webhook_url p) = Some url ->
    SLACK_WEBHOOK_PATTERN_test url = true ->
    (forall lastSentAt, last_test_slack_at p = Some lastSentAt ->
                        60 * 1000 <= clock (Slack.ticks w) - lastSentAt) ->
    (forall payload, exists response,
        fetch url payload = Return response /\ ok response = true) ->
    exists k payload,
      (POST w).1
      = Return {| Route.body :=
                    Route.SuccessBody (lit "Test notification sent successfully");
                  Route.status_code := 200 |}
      /\ outbox (POST w).2 = outbox w ++ [(url, payload)]
      /\ user_preferences (POST w).2 !! uid
         = Some {| slack_webhook_url := slack_webhook_url p;
                   last_test_slack_at := Some (clock k) |}.
Proof.
  intros w uid p provided url Hclient Hauth Hbody Hsel Hupd Hp Hurl Htest Hold Hfetch.
  post_unfold. rewrite Hclient, Hauth, Hbody, Hsel, Hupd. post_reduce.
  rewrite Hp. post_reduce. rewrite Hurl.
  destruct url as [|c url]; [done|]. post_reduce. rewrite Htest. post_reduce.
  destruct (last_test_slack_at p) as [last|] eqn:Hlast; post_reduce.
  - specialize (Hold last eq_refl).
    unfold Route.TEST_SLACK_COOLDOWN_MS, Route.TEST_SLACK_COOLDOWN_SECONDS.
    destruct (Z.ltb_spec (clock (Slack.ticks w) - last) (60 * 1000)); [lia|].
    post_reduce.
    match goal with |- context [fetch ?u ?pl] =>
      destruct (Hfetch pl) as (resp & Hresp & Hok); rewrite Hresp; eexists _, pl
    end.
    post_reduce. rewrite Hok. post_reduce.
    repeat split. by rewrite lookup_alter_eq, Hp.
  - match goal with |- context [fetch ?u ?pl] =>
      destruct (Hfetch pl) as (resp & Hresp & Hok); rewrite Hresp; eexists _, pl
    end.
    post_reduce. rewrite Hok. post_reduce.
    repeat split. by rewrite lookup_alter_eq, Hp.
Qed.

(** X25: the first test of a user who has no row of preferences. When the
    session, the body, the store and the webhook all answer and the URL
    given in the body matches the pattern, the answer is 200, one message
    is sent to that URL, and a row is created for the user with that URL
    and a [last_test_slack_at] read from the clock. *)
Theorem POST_first_test_inserts :
  forall (w : Slack.World) (uid url : jsstring),
    createServerSupabaseClient = Return tt ->
    getUser = Return {| Route.auth_user := Some uid; Route.authError := None |} ->
    request_json = Return (Route.ObjectBody (Some url)) ->
    select_fault = Healthy ->
    insert_fault = Healthy ->
    user_preferences w !! uid = None ->
    SLACK_WEBHOOK_PATTERN_test url = true ->
    (forall payload, exists response,
        fetch url payload = Return response /\ ok response = true) ->
    exists k payload,
      (POST w).1
      = Return {| Route.body :=
                    Route.SuccessBody (lit "Test notification sent successfully");
                  Route.status_code := 200 |}
      /\ outbox (POST w).2 = outbox w ++ [(url, payload)]
      /\ user_preferences (POST w).2 !! uid
         = Some {| slack_webhook_url := Some url;
                   last_test_slack_at := Some (clock k) |}.
Proof.
  intros w uid url Hclient Hauth Hbody Hsel Hins Hnone Htest Hfetch.
  post_unfold. rewrite Hclient, Hauth, Hbody, Hsel, Hins. post_reduce.
  rewrite Hnone. post_reduce. unfold or_str.
  destruct url as [|c url]; [done|]. post_reduce. rewrite Htest. post_reduce.
  match goal with |- context [fetch ?u ?pl] =>
    destruct (Hfetch pl) as (resp & Hresp & Hok); rewrite Hresp; eexists _, pl
  end.
  post_reduce. rewrite Hok. post_reduce. rewrite Hnone. post_reduce.
  repeat split. by rewrite lookup_insert_eq.
Qed.

End TestSlackMore.

(** ** Properties of the key endpoint ([firecrawl/regenerate/route.ts]) *)

Section RegenerateKey.

Variable createServerSupabaseClient : completion unit.
Variable getUser : completion Regenerate.AuthResult.
Variable regenerateFirecrawlKey : jsstring -> jsstring -> completion Regenerate.KeyResult.

Local Abbreviation POST :=
  (Regenerate.POST createServerSupabaseClient getUser regenerateFirecrawlKey).

Ltac regenerate_unfold :=
  cbv [Regenerate.POST Regenerate.call_regenerate try_catch bind lift ret throw].

Ltac regenerate_reduce :=
  cbv beta iota zeta;
  cbn [truthy_obj truthy_str negb from_option Datatypes.id fst snd
       Regenerate.auth_user Regenerate.authError Regenerate.session_email
       Regenerate.session_id Regenerate.status_code Regenerate.body
       Regenerate.regenerations].

(** X26: the endpoint always answers, and it answers 200 exactly when the
    client was created, the session names a user with a non-empty email,
    and [regenerateFirecrawlKey], called with the id and the email of that
    user, resolved to a success. *)
Theorem regenerate_answers_200_iff :
  forall w : Regenerate.World,
  exists r w',
    POST w = (Return r, w')
    /\ (Regenerate.status_code r = 200
        <-> createServerSupabaseClient = Return tt
            /\ exists a u email k,
                 getUser = Return a
                 /\ Regenerate.authError a = None
                 /\ Regenerate.auth_user a = Some u
                 /\ Regenerate.session_email u = Some email /\ email ≠ []
                 /\ regenerateFirecrawlKey (Regenerate.session_id u) email = Return k
                 /\ Regenerate.key_success k = true).
Proof.
  intros w. regenerate_unfold.
  destruct createServerSupabaseClient as [[]|e0]; regenerate_reduce.
  2: { eexists _, _. split; [reflexivity|]. split; [done|]. by intros [? _]. }
  destruct getUser as [a|e0]; regenerate_reduce.
  2: { eexists _, _. split; [reflexivity|]. split; [done|].
       by intros (_ & a & u & email & k & ? & _). }
  destruct a as [user err]. regenerate_reduce.
  destruct err as [msg|]; regenerate_reduce.
  { eexists _, _. split; [reflexivity|]. split; [done|].
    by intros (_ & a & u & email & k & [= <-] & ? & _). }
  destruct user as [u|]; regenerate_reduce.
  2: { eexists _, _. split; [reflexivity|]. split; [done|].
       by intros (_ & a & u & email & k & [= <-] & _ & ? & _). }
  destruct u as [uid mail]. regenerate_reduce.
  destruct mail as [[|c mail]|]; regenerate_reduce.
  1, 3: (eexists _, _; split; [reflexivity|]; split; [done|];
         by intros (_ & a & u & email & k & [= <-] & _ & [= <-] & [= <-] & ? & _)).
  destruct (regenerateFirecrawlKey uid (c :: mail)) as [k|e0] eqn:Hcall; regenerate_reduce.
  2: { eexists _, _. split; [reflexivity|]. split; [done|].
       intros (_ & a & u & email & k & [= <-] & _ & [= <-] & [= <-] & _ & Hk & _).
       simpl in Hk. congruence. }
  destruct (Regenerate.key_success k) eqn:Hok; regenerate_reduce.
  - eexists _, _. split; [reflexivity|]. split; [|done].
    intros _. split; [done|].
    by exists {| Regenerate.auth_user := Some {| Regenerate.session_id := uid;
                                               Regenerate.session_email := Some (c :: mail) |};
                Regenerate.authError := None |},
             {| Regenerate.session_id := uid; Regenerate.session_email := Some (c :: mail) |},
             (c :: mail), k.
  - eexists _, _. split; [reflexivity|]. split; [done|].
    intros (_ & a & u & email & k' & [= <-] & _ & [= <-] & [= <-] & _ & Hk & Hs).
    simpl in Hk. congruence.
Qed.

(** X27: [regenerateFirecrawlKey] is called at most once, and only with the
    id and the non-empty email of the user that the session names. *)
Theorem regenerate_called_for_session_user :
  forall w : Regenerate.World,
    Regenerate.regenerations (POST w).2 = Regenerate.regenerations w
    \/ exists a u email,
         getUser = Return a
         /\ Regenerate.authError a = None
         /\ Regenerate.auth_user a = Some u
         /\ Regenerate.session_email u = Some email /\ email ≠ []
         /\ Regenerate.regenerations (POST w).2
            = Regenerate.regenerations w ++ [(Regenerate.session_id u, email)].
Proof.
  intros w. regenerate_unfold.
  destruct createServerSupabaseClient as [[]|e0]; regenerate_reduce; [|by left].
  destruct getUser as [[user err]|e0]; regenerate_reduce; [|by left].
  destruct err as [msg|]; regenerate_reduce; [by left|].
  destruct user as [[uid mail]|]; regenerate_reduce; [|by left].
  destruct mail as [[|c mail]|]; regenerate_reduce; [by left| |by left].
  right. eexists _, _, (c :: mail). repeat split; [done|].
  destruct (regenerateFirecrawlKey uid (c :: mail)) as [k|e0]; regenerate_reduce; [|done].
  by destruct (Regenerate.key_success k).
Qed.

End RegenerateKey.

(** ** Properties of the route that ends the sign-in *)





Section SignIn.

Variable createServerSupabaseClient : completion unit.
Variable exchangeCodeForSession : jsstring -> completion (option jsstring).
Variable getUser : completion (option Callback.SessionUser).
Variable preferences_fault : fault.

Local Abbreviation GET :=
  (Callback.GET createServerSupabaseClient exchangeCodeForSession getUser
     preferences_fault).

Ltac callback_unfold :=
  cbv [Callback.GET Callback.select_key_preferences Callback.request_key
       bind lift ret throw].

Ltac callback_reduce :=
  cbv beta iota zeta;
  cbn [truthy_obj truthy_str negb andb from_option Datatypes.id fst snd
       Callback.key_requests Callback.key_preferences
       Callback.session_id Callback.session_email].

(** X28: without a code, or with a code that the session exchange answers
    with an error, the browser is sent to the login page with the error
    marker, no key is requested and the world is left as it was. *)
Theorem callback_login_error :
  forall (request : Callback.Request) (w : Callback.World),
    (truthy_str (Callback.code request) = false
     \/ exists c msg,
          Callback.code request = Some c
          /\ createServerSupabaseClient = Return tt
          /\ exchangeCodeForSession c = Return (Some msg)) ->
    GET request w
    = (Return (Callback.origin request ++ lit "/login?error=auth_callback_error"), w).
Proof.
  intros request w [Hnone|(c & msg & Hc & Hclient & Hex)]; callback_unfold.
  - by destruct (Callback.code request) as [[|c code]|].
  - rewrite Hc, Hclient. destruct c as [|c0 c]; [done|]. by rewrite Hex.
Qed.

(** X29: the route never writes to the preferences, and it requests a
    Firecrawl key at most once, only after the code was exchanged without
    error, only for a user with a non-empty id and a non-empty email, and,
    when the preferences query answers, only if that user has no key or a
    key whose status is not [active]. *)
Theorem callback_key_request :
  forall (request : Callback.Request) (w : Callback.World),
    let w' := (GET request w).2 in
    Callback.key_preferences w' = Callback.key_preferences w
    /\ (Callback.key_requests w' = Callback.key_requests w
        \/ exists c u uid email,
             Callback.code request = Some c
             /\ exchangeCodeForSession c = Return None
             /\ getUser = Return (Some u)
             /\ Callback.session_id u = Some uid /\ uid ≠ []
             /\ Callback.session_email u = Some email /\ email ≠ []
             /\ (preferences_fault = Healthy ->
                 Callback.needsKey (Callback.key_preferences w !! uid) = true)
             /\ Callback.key_requests w' = Callback.key_requests w ++ [(uid, email)]).
Proof.
  intros request w. callback_unfold.
  destruct (Callback.code request) as [[|c0 c]|] eqn:Hcode; [by split; [|left]| |by split; [|left]].
  destruct createServerSupabaseClient as [[]|e0]; callback_reduce; [|by split; [|left]].
  destruct (exchangeCodeForSession (c0 :: c)) as [[msg|]|e0] eqn:Hex;
    callback_reduce; [by split; [|left]| |by split; [|left]].
  destruct getUser as [[u|]|e0] eqn:Huser; callback_reduce.
  3: by split; [|left].
  2: { destruct (or_str (Callback.pendingQuery request) (Some [])) as [[|q0 q]|];
         callback_reduce; try (by split; [|left]).
       by destruct (Callback.encodeURIComponent (q0 :: q)); split; [|left| |left]. }
  destruct u as [sid mail]. callback_reduce.
  assert (Htail : forall w1 : Callback.World,
    Callback.key_preferences
      ((if truthy_str (Some (default [] (or_str (Callback.pendingQuery request) (Some []))))
        then
          fun w2 : Callback.World =>
            match Callback.encodeURIComponent
                    (default [] (or_str (Callback.pendingQuery request) (Some []))) with
            | Return a =>
                (Return (Callback.origin request ++ lit "/?pendingQuery=" ++ a), w2)
            | Throw e => (@Throw jsstring e, w2)
            end
        else
          fun w2 : Callback.World =>
            (Return (Callback.origin request
                       ++ default [] (or_str (Callback.redirectTo request) (Some (lit "/")))),
             w2)) w1).2 = Callback.key_preferences w1
    /\ Callback.key_requests
      ((if truthy_str (Some (default [] (or_str (Callback.pendingQuery request) (Some []))))
        then
          fun w2 : Callback.World =>
            match Callback.encodeURIComponent
                    (default [] (or_str (Callback.pendingQuery request) (Some []))) with
            | Return a =>
                (Return (Callback.origin request ++ lit "/?pendingQuery=" ++ a), w2)
            | Throw e => (@Throw jsstring e, w2)
            end
        else
          fun w2 : Callback.World =>
            (Return (Callback.origin request
                       ++ default [] (or_str (Callback.redirectTo request) (Some (lit "/")))),
             w2)) w1).2 = Callback.key_requests w1).
  { intros w1. destruct (truthy_str _); [|done].
    by destruct (Callback.encodeURIComponent _). }
  destruct sid as [[|s0 sid]|]; callback_reduce;
    [by destruct (Htail w); split; [|left]| |by destruct (Htail w); split; [|left]].
  destruct mail as [[|m0 mail]|]; callback_reduce;
    [by destruct (Htail w); split; [|left]| |by destruct (Htail w); split; [|left]].
  destruct preferences_fault as [|msg|e0] eqn:Hfault; callback_reduce.
  3: by split; [|left].
  - destruct (Callback.needsKey _) eqn:Hneeds;
      callback_reduce; [|by destruct (Htail w); split; [|left]].
    match goal with
    | |- context [Callback.Build_World ?p ?q] =>
        destruct (Htail (Callback.Build_World p q)) as [Hp Hq]
    end.
    split; [done|]. right.
    exists (c0 :: c), {| Callback.session_id := Some (s0 :: sid);
                         Callback.session_email := Some (m0 :: mail) |},
      (s0 :: sid), (m0 :: mail).
    by repeat split.
  - change (Callback.needsKey None) with true. callback_reduce.
    match goal with
    | |- context [Callback.Build_World ?p ?q] =>
        destruct (Htail (Callback.Build_World p q)) as [Hp Hq]
    end.
    split; [done|]. right.
    exists (c0 :: c), {| Callback.session_id := Some (s0 :: sid);
                         Callback.session_email := Some (m0 :: mail) |},
      (s0 :: sid), (m0 :: mail).
    by repeat split.
Qed.


End SignIn.

(** ** The further properties on the sample data *)

Lemma serve_without_configuration_witness :
  serve noon None sample_key Healthy (fun _ => Healthy) Healthy Healthy Healthy Healthy
    directory (fun _ => true) agent cron_request world
  = (Return {| body := ErrorBody (Some (lit "Supabase configuration missing"));
               status_code := 500 |}, world).
Proof.
  apply (serve_without_configuration noon None sample_key Healthy (fun _ => Healthy)
           Healthy Healthy Healthy Healthy directory (fun _ => true) agent
           cron_request world); [discriminate|left; reflexivity].
Defined.

Lemma cleanup_leaves_none_stuck_witness :
  noon (Cron.ticks world) - 3 * 60 * 1000
  <= started_at (running_since "s2" (now0 - minutes 1)).
Proof.
  apply (cleanup_leaves_none_stuck noon Healthy (fun _ => Healthy) world (lit "e2")
           (running_since "s2" (now0 - minutes 1)));
    [reflexivity|reflexivity|vm_compute; reflexivity|reflexivity].
Defined.

Lemma cron_trigger_selects_due_witness :
  exists scoutsToRun,
    select_scouts_to_run Healthy Healthy (fun _ => true) cron_request world
    = (Return scoutsToRun, world)
    /\ forall s,
         In s scoutsToRun
         <-> (exists sid, scouts world !! sid = Some s)
             /\ is_active s = true /\ (fun _ : Scout => true) s = true.
Proof.
  apply (cron_trigger_selects_due Healthy Healthy (fun _ => true) cron_request world);
    [left; reflexivity|reflexivity].
Defined.

Lemma cron_trigger_store_error_witness :
  (serve noon sample_url sample_key Healthy (fun _ => Healthy) Healthy Healthy Healthy
     (Fails (lit "connection lost")) directory (fun _ => true) agent cron_request world).1
  = Return {| body := ErrorBody (Some (lit "connection lost")); status_code := 500 |}.
Proof.
  rewrite (cron_trigger_store_error noon sample_url sample_key Healthy (fun _ => Healthy)
             Healthy Healthy Healthy (Fails (lit "connection lost")) directory
             (fun _ => true) agent (conj eq_refl eq_refl) cron_request world
             (lit "connection lost"));
    [reflexivity|discriminate|reflexivity|reflexivity|vm_compute; reflexivity].
Defined.

Lemma manual_trigger_store_error_witness :
  (serve noon sample_url sample_key Healthy (fun _ => Healthy) Healthy Healthy
     (Fails (lit "connection lost")) Healthy directory (fun _ => true) agent
     (manual_request "s2") world).1
  = Return {| body := ErrorBody (Some (lit "Scout s2 not found in database"));
              status_code := 500 |}.
Proof.
  rewrite (manual_trigger_store_error noon sample_url sample_key Healthy
             (fun _ => Healthy) Healthy Healthy (Fails (lit "connection lost")) Healthy
             directory (fun _ => true) agent (conj eq_refl eq_refl)
             (manual_request "s2") (lit "s2") world (lit "connection lost"));
    [reflexivity|discriminate|reflexivity|discriminate|reflexivity
    |vm_compute; reflexivity].
Defined.

Lemma execution_first_rejection_witness :
  exists s e,
    In s [scout_of "s3" "ghost" true; scout_of "s2" "u2" true]
    /\ outcome (agent s) = Rejected e
    /\ (serve noon sample_url sample_key Healthy (fun _ => Healthy) Healthy Healthy
          Healthy Healthy directory (fun _ => true) agent cron_request world).1
       = Return {| body := ErrorBody (message_of e); status_code := 500 |}.
Proof.
  destruct (execution_first_rejection noon sample_url sample_key Healthy
              (fun _ => Healthy) Healthy Healthy Healthy Healthy directory
              (fun _ => true) agent (conj eq_refl eq_refl) cron_request world
              (before_execution noon Healthy (fun _ => Healthy) Healthy Healthy
                 Healthy Healthy directory (fun _ => true) cron_request world).2
              [scout_of "s3" "ghost" true; scout_of "s2" "u2" true])
    as [_ Hrejected]; [discriminate|vm_compute; reflexivity|].
  destruct Hrejected as (s & e & Hs & He & _ & Hfail).
  { exists (scout_of "s3" "ghost" true), (JsError (lit "Firecrawl request failed")).
    split; [by left|reflexivity]. }
  exists s, e. repeat split; [done..|]. by rewrite Hfail.
Defined.

Lemma POST_touches_own_row_witness :
  exists a, signed_in "u1" = Return a
            /\ Route.authError a = None /\ Route.auth_user a = Some (lit "u1").
Proof.
  apply (POST_touches_own_row noon no_locale slack_ok (Return tt) (signed_in "u1")
           body_without_url Healthy Healthy Healthy rested_world (lit "u1")).
  vm_compute. discriminate.
Defined.

Lemma POST_failure_stores_nothing_witness :
  user_preferences
    (Route.POST noon no_locale slack_ok (Return tt) (signed_in "u1") body_without_url
       Healthy Healthy Healthy slack_world).2
  = user_preferences slack_world.
Proof.
  apply (POST_failure_stores_nothing noon no_locale slack_ok (Return tt)
           (signed_in "u1") body_without_url Healthy Healthy Healthy slack_world
           {| Route.body :=
                Route.ErrorBody (lit "Please wait 30 seconds before sending another test")
                  (Some 30);
              Route.status_code := 429 |});
    [vm_compute; reflexivity|discriminate].
Defined.

Lemma rate_limit_remaining_witness :
  exists n,
    (Route.rate_limit noon
       (Some {| slack_webhook_url := Some webhook;
                last_test_slack_at := Some (now0 - 30000) |}) slack_world).1
    = Return (Some {| Route.body :=
                        Route.ErrorBody
                          (lit "Please wait " ++ of_Z n
                             ++ lit " seconds before sending another test")
                          (Some n);
                      Route.status_code := 429 |})
    /\ 1 <= n <= 60
    /\ 1000 * (n - 1) < 60 * 1000 - (noon (Slack.ticks slack_world) - (now0 - 30000))
       <= 1000 * n.
Proof.
  destruct (rate_limit_remaining noon slack_world
              {| slack_webhook_url := Some webhook;
                 last_test_slack_at := Some (now0 - 30000) |}
              (now0 - 30000) eq_refl) as [Hrefused _].
  apply Hrefused. vm_compute. split; [discriminate|reflexivity].
Defined.

Lemma POST_success_updates_witness :
  exists k payload,
    (Route.POST noon no_locale slack_ok (Return tt) (signed_in "u1") body_without_url
       Healthy Healthy Healthy rested_world).1
    = Return {| Route.body :=
                  Route.SuccessBody (lit "Test notification sent successfully");
                Route.status_code := 200 |}
    /\ outbox (Route.POST noon no_locale slack_ok (Return tt) (signed_in "u1")
                 body_without_url Healthy Healthy Healthy rested_world).2
       = outbox rested_world ++ [(webhook, payload)]
    /\ user_preferences
         (Route.POST noon no_locale slack_ok (Return tt) (signed_in "u1")
            body_without_url Healthy Healthy Healthy rested_world).2 !! lit "u1"
       = Some {| slack_webhook_url := slack_webhook_url rested_row;
                 last_test_slack_at := Some (noon k) |}.
Proof.
  apply (POST_success_updates noon no_locale slack_ok (Return tt) (signed_in "u1")
           body_without_url Healthy Healthy Healthy rested_world (lit "u1") rested_row
           None webhook); try reflexivity.
  - intros lastSentAt [= <-]. vm_compute. discriminate.
  - intros payload. eexists. split; reflexivity.
Defined.

Lemma POST_first_test_inserts_witness :
  exists k payload,
    (Route.POST noon no_locale slack_ok (Return tt) (signed_in "u9") body_with_url
       Healthy Healthy Healthy rested_world).1
    = Return {| Route.body :=
                  Route.SuccessBody (lit "Test notification sent successfully");
                Route.status_code := 200 |}
    /\ outbox (Route.POST noon no_locale slack_ok (Return tt) (signed_in "u9")
                 body_with_url Healthy Healthy Healthy rested_world).2
       = outbox rested_world ++ [(webhook, payload)]
    /\ user_preferences
         (Route.POST noon no_locale slack_ok (Return tt) (signed_in "u9")
            body_with_url Healthy Healthy Healthy rested_world).2 !! lit "u9"
       = Some {| slack_webhook_url := Some webhook;
                 last_test_slack_at := Some (noon k) |}.
Proof.
  apply (POST_first_test_inserts noon no_locale slack_ok (Return tt) (signed_in "u9")
           body_with_url Healthy Healthy Healthy rested_world (lit "u9") webhook);
    try reflexivity.
  intros payload. eexists. split; reflexivity.
Defined.

Lemma callback_login_error_witness :
  Callback.GET (Return tt) exchange_ok session_user Healthy callback_without_code
    callback_world
  = (Return (lit "https://scouts.example" ++ lit "/login?error=auth_callback_error"),
     callback_world).
Proof.
  apply (callback_login_error (Return tt) exchange_ok session_user Healthy
           callback_without_code callback_world).
  left. reflexivity.
Defined.

